(** * CB2 Bot: webhook authentication, command store, cooldowns and dispatch

    A shallow embedding of [helpers.py] (signature verification) and of
    [main.py] (cooldown handlers, the webhook request handler, the stored
    command table, the command dispatcher and the chat read loop), followed
    by the properties of the design document that concern them.

    Conventions of the embedding.
    - A Python [str] and a Python [bytes] are both a [string] of this file,
      read as the sequence of bytes of the UTF-8 text; [str.encode()] is
      therefore the identity. [str.strip()], [int()] and indexing follow the
      characters of the text; [str.lower()] acts on the ASCII letters only,
      and the properties that depend on folding are stated for ASCII.
    - Python integers are [Z]; the wall clock [time()] is read as a whole
      number of seconds, and a double that is a whole number is the [Z] of
      its value, rounded as the machine rounds it.
    - A function that can raise returns an [outcome]; the process-wide
      globals and the sockets are fields of one [State] that is passed
      through every call. *)

From Stdlib Require Import ZArith List String Ascii Bool Lia.
From stdpp Require Import gmap strings.
Import ListNotations.

#[local] Set Warnings "-register-all".

Local Open Scope string_scope.
Local Open Scope list_scope.
Local Open Scope Z_scope.

(** ** Python string primitives *)

Module Py.

(** [s.lower()], on the ASCII letters: a text in ASCII is folded as
    [str.lower] folds it. A letter outside ASCII is left as it is, where
    [str.lower] folds it too; no such letter becomes an ASCII letter other
    than [k] (of the Kelvin sign) and [i] (of the dotted capital I). *)
Definition lower_ascii (c : ascii) : ascii :=
  let n := N_of_ascii c in
  if ((65 <=? n) && (n <=? 90))%N then ascii_of_N (n + 32) else c.

Fixpoint lower (s : string) : string :=
  match s with
  | EmptyString => EmptyString
  | String c s' => String (lower_ascii c) (lower s')
  end.

(** [s.startswith(p)]. *)
Fixpoint startswith (p s : string) : bool :=
  match p, s with
  | EmptyString, _ => true
  | String a p', String b s' => if ascii_dec a b then startswith p' s' else false
  | String _ _, EmptyString => false
  end.

(** [sub in s] for two strings: [sub] occurs in [s] as a contiguous run. *)
Fixpoint contains (sub s : string) : bool :=
  startswith sub s ||
  match s with
  | EmptyString => false
  | String _ s' => contains sub s'
  end.

(** [s.find(sub)]: the least index where [sub] occurs, or [-1]. *)
Fixpoint find_from (i : Z) (sub s : string) : Z :=
  if startswith sub s then i
  else match s with
       | EmptyString => -1
       | String _ s' => find_from (i + 1) sub s'
       end.

Definition find (sub s : string) : Z := find_from 0 sub s.

(** [s[n:]] for a non-negative [n]. *)
Fixpoint drop (n : nat) (s : string) : string :=
  match n, s with
  | O, _ => s
  | S _, EmptyString => EmptyString
  | S n', String _ s' => drop n' s'
  end.

(** [s[:n]] for a non-negative [n]. *)
Fixpoint take (n : nat) (s : string) : string :=
  match n, s with
  | O, _ => EmptyString
  | S _, EmptyString => EmptyString
  | S n', String c s' => String c (take n' s')
  end.

(** [s.removeprefix(p)]. *)
Definition removeprefix (p s : string) : string :=
  if startswith p s then drop (String.length p) s else s.

(** [s.split(sep)] for a separator of one character. *)
Fixpoint split_char (sep : ascii) (s : string) : list string :=
  match s with
  | EmptyString => [EmptyString]
  | String c s' =>
      if ascii_dec c sep then EmptyString :: split_char sep s'
      else match split_char sep s' with
           | w :: ws => String c w :: ws
           | [] => [String c EmptyString]
           end
  end.

(** [s.split(sep, 1)]: cut at the first occurrence of [sep] only. *)
Fixpoint split1 (sep s : string) : list string :=
  if startswith sep s then [EmptyString; drop (String.length sep) s]
  else match s with
       | EmptyString => [EmptyString]
       | String c s' =>
           match split1 sep s' with
           | [w] => [String c w]
           | w :: rest => String c w :: rest
           | [] => [String c EmptyString]
           end
       end.

(** [sep.join(l)]. *)
Definition join (sep : string) (l : list string) : string := String.concat sep l.

(** [s.strip(chars)] and [s.strip()]. *)
Fixpoint lstrip_by (f : ascii -> bool) (s : string) : string :=
  match s with
  | EmptyString => EmptyString
  | String c s' => if f c then lstrip_by f s' else s
  end.

Fixpoint rstrip_by (f : ascii -> bool) (s : string) : string :=
  match s with
  | EmptyString => EmptyString
  | String c s' =>
      match rstrip_by f s' with
      | EmptyString => if f c then EmptyString else String c EmptyString
      | r => String c r
      end
  end.

Definition strip_by (f : ascii -> bool) (s : string) : string :=
  rstrip_by f (lstrip_by f s).

Fixpoint mem_ascii (c : ascii) (cs : string) : bool :=
  match cs with
  | EmptyString => false
  | String d cs' => if ascii_dec c d then true else mem_ascii c cs'
  end.

Definition strip_chars (cs s : string) : string :=
  strip_by (fun c => mem_ascii c cs) s.

(** The characters of a string: a byte that continues a UTF-8 sequence
    stays with the byte before it. *)
Definition is_continuation (c : ascii) : bool :=
  let n := N_of_ascii c in ((128 <=? n) && (n <=? 191))%N.

Fixpoint chars (s : string) : list string :=
  match s with
  | EmptyString => []
  | String c s' =>
      match chars s' with
      | String d w :: ws =>
          if is_continuation d then String c (String d w) :: ws
          else String c EmptyString :: String d w :: ws
      | ws => String c EmptyString :: ws
      end
  end.

(** The code point that a character written in UTF-8 stands for. *)
Definition code_point (ch : string) : Z :=
  let n (c : ascii) := Z.of_N (N_of_ascii c) in
  match ch with
  | String a EmptyString => n a
  | String a (String b EmptyString) => (n a - 192) * 64 + (n b - 128)
  | String a (String b (String c EmptyString)) =>
      ((n a - 224) * 64 + (n b - 128)) * 64 + (n c - 128)
  | String a (String b (String c (String d EmptyString))) =>
      (((n a - 240) * 64 + (n b - 128)) * 64 + (n c - 128)) * 64 + (n d - 128)
  | _ => -1
  end.

(** [str.isspace] on one character: the blanks of ASCII, the next line
    and the no-break space, and the spaces and separators from U+1680 to
    U+3000. *)
Definition isspace (cp : Z) : bool :=
  ((9 <=? cp) && (cp <=? 13)) || ((28 <=? cp) && (cp <=? 32))
  || (cp =? 133) || (cp =? 160) || (cp =? 5760)
  || ((8192 <=? cp) && (cp <=? 8202)) || (cp =? 8232) || (cp =? 8233)
  || (cp =? 8239) || (cp =? 8287) || (cp =? 12288).

Fixpoint drop_while {A : Type} (f : A -> bool) (l : list A) : list A :=
  match l with
  | [] => []
  | x :: l' => if f x then drop_while f l' else l
  end.

(** [s.strip()], character by character. *)
Definition strip (s : string) : string :=
  let blank ch := isspace (code_point ch) in
  String.concat EmptyString
    (rev (drop_while blank (rev (drop_while blank (chars s))))).

(** [s[1:]]: the string without its first character. *)
Definition tail (s : string) : string :=
  match s with
  | EmptyString => EmptyString
  | String _ s' => lstrip_by is_continuation s'
  end.

(** [str(n)] for an integer. *)
Definition digit (d : Z) : ascii := ascii_of_N (Z.to_N (48 + d)).

Fixpoint digits_fuel (fuel : nat) (n : Z) (acc : string) : string :=
  match fuel with
  | O => acc
  | S fuel' =>
      let acc' := String (digit (n mod 10)) acc in
      if n <? 10 then acc' else digits_fuel fuel' (n / 10) acc'
  end.

Definition str_of_Z (n : Z) : string :=
  let m := Z.abs n in
  let ds := digits_fuel (S (Z.to_nat (Z.log2 m))) m EmptyString in
  if n <? 0 then String "-" ds else ds.

(** [int(s)] for a string: optional surrounding blanks, an optional sign,
    then decimal digits, single underscores allowed between digits; blanks
    and digits may be those of any script unless the string is ASCII.
    [None] stands for [ValueError]. *)
Definition digit_val (c : ascii) : option Z :=
  let n := N_of_ascii c in
  if ((48 <=? n) && (n <=? 57))%N then Some (Z.of_N n - 48) else None.

Fixpoint parse_digits (need_digit : bool) (acc : Z) (s : string) : option Z :=
  match s with
  | EmptyString => if need_digit then None else Some acc
  | String c s' =>
      if ascii_dec c "_" then
        if need_digit then None else parse_digits true acc s'
      else
        match digit_val c with
        | Some d => parse_digits false (10 * acc + d) s'
        | None => None
        end
  end.

Fixpoint is_ascii (s : string) : bool :=
  match s with
  | EmptyString => true
  | String c s' => (N_of_ascii c <=? 127)%N && is_ascii s'
  end.

(** The blanks [int] skips around an ASCII numeral: the space and the
    characters from tab to carriage return. *)
Definition c_isspace (c : ascii) : bool :=
  let n := N_of_ascii c in
  ((n =? 32) || ((9 <=? n) && (n <=? 13)))%N.

(** The digit zero of every run of decimal digits of Unicode 14. *)
Definition decimal_zeros : list Z :=
  [48; 1632; 1776; 1984; 2406; 2534; 2662; 2790; 2918; 3046; 3174; 3302;
   3430; 3558; 3664; 3792; 3872; 4160; 4240; 6112; 6160; 6470; 6608; 6784;
   6800; 6992; 7088; 7232; 7248; 42528; 43216; 43264; 43472; 43504; 43600;
   44016; 65296; 66720; 68912; 69734; 69872; 69942; 70096; 70384; 70736;
   70864; 71248; 71360; 71472; 71904; 72016; 72784; 73040; 73120; 92768;
   92864; 93008; 120782; 120792; 120802; 120812; 120822; 123200; 123632;
   125264; 130032].

Definition to_decimal (cp : Z) : option Z :=
  match List.filter (fun z => (z <=? cp) && (cp <? z + 10)) decimal_zeros with
  | z :: _ => Some (cp - z)
  | [] => None
  end.

(** What [int] makes of a string that is not ASCII before it reads the
    numeral: a space of every blank and an ASCII digit of every decimal
    digit above U+007E; [None] when another such character occurs. *)
Fixpoint to_ascii (l : list string) : option string :=
  match l with
  | [] => Some EmptyString
  | ch :: l' =>
      let cp := code_point ch in
      if cp <? 127 then append ch <$> to_ascii l'
      else if isspace cp then String " " <$> to_ascii l'
      else match to_decimal cp with
           | Some d => String (digit d) <$> to_ascii l'
           | None => None
           end
  end.

Fixpoint count_digits (s : string) : Z :=
  match s with
  | EmptyString => 0
  | String c s' =>
      match digit_val c with
      | Some _ => 1 + count_digits s'
      | None => count_digits s'
      end
  end.

(** The numeral is read from the ASCII form; more than 4300 digits are
    refused. *)
Definition int_of_str (s : string) : option Z :=
  match (if is_ascii s then Some s else to_ascii (chars s)) with
  | None => None
  | Some a =>
      let t := strip_by c_isspace a in
      if 4300 <? count_digits t then None
      else match t with
           | String "-" r => Z.opp <$> parse_digits true 0 r
           | String "+" r => parse_digits true 0 r
           | _ => parse_digits true 0 t
           end
  end.

(** Whether a sequence of bytes is well-formed UTF-8, that is, whether
    [data.decode('utf-8')] returns. [more] continuation bytes are awaited,
    the next of them between [lo] and [hi]. *)
Fixpoint utf8_from (more : nat) (lo hi : N) (s : string) : bool :=
  match s with
  | EmptyString => match more with O => true | S _ => false end
  | String c r =>
      let n := N_of_ascii c in
      match more with
      | S more' => ((lo <=? n) && (n <=? hi))%N && utf8_from more' 128 191 r
      | O =>
          if (n <=? 127)%N then utf8_from 0 128 191 r
          else if ((194 <=? n) && (n <=? 223))%N then utf8_from 1 128 191 r
          else if (n =? 224)%N then utf8_from 2 160 191 r
          else if (n =? 237)%N then utf8_from 2 128 159 r
          else if ((225 <=? n) && (n <=? 239))%N then utf8_from 2 128 191 r
          else if (n =? 240)%N then utf8_from 3 144 191 r
          else if (n =? 244)%N then utf8_from 3 128 143 r
          else if ((241 <=? n) && (n <=? 243))%N then utf8_from 3 128 191 r
          else false
      end
  end.

Definition utf8_valid (s : string) : bool := utf8_from 0 128 191 s.

End Py.

(** ** SHA-256, HMAC and hexadecimal digests ([hashlib], [hmac])

    Words are 32-bit integers held in [Z]; every addition wraps modulo
    [2^32] (FIPS 180-4, section 6.2; RFC 2104 for the keyed construction). *)

Module Hashlib.

Definition wrap32 (x : Z) : Z := x mod 4294967296.
Definition add32 (x y : Z) : Z := wrap32 (x + y).
Definition rotr (n x : Z) : Z :=
  Z.lor (Z.shiftr x n) (wrap32 (Z.shiftl x (32 - n))).
Definition not32 (x : Z) : Z := 4294967295 - x.

Definition Ch (x y z : Z) : Z := Z.lxor (Z.land x y) (Z.land (not32 x) z).
Definition Maj (x y z : Z) : Z :=
  Z.lxor (Z.lxor (Z.land x y) (Z.land x z)) (Z.land y z).
Definition Sigma0 (x : Z) : Z := Z.lxor (Z.lxor (rotr 2 x) (rotr 13 x)) (rotr 22 x).
Definition Sigma1 (x : Z) : Z := Z.lxor (Z.lxor (rotr 6 x) (rotr 11 x)) (rotr 25 x).
Definition sigma0 (x : Z) : Z := Z.lxor (Z.lxor (rotr 7 x) (rotr 18 x)) (Z.shiftr x 3).
Definition sigma1 (x : Z) : Z := Z.lxor (Z.lxor (rotr 17 x) (rotr 19 x)) (Z.shiftr x 10).

(** The constants of the standard are the first 32 bits of the fractional
    parts of the roots of the first primes: cube roots of the first
    sixty-four for the round constants, square roots of the first eight
    for the initial hash value. *)
Definition primes : list Z :=
  [2; 3; 5; 7; 11; 13; 17; 19; 23; 29; 31; 37; 41; 43; 47; 53; 59; 61; 67; 71;
   73; 79; 83; 89; 97; 101; 103; 107; 109; 113; 127; 131; 137; 139; 149; 151;
   157; 163; 167; 173; 179; 181; 191; 193; 197; 199; 211; 223; 227; 229; 233;
   239; 241; 251; 257; 263; 269; 271; 277; 281; 283; 293; 307; 311].

(** The integer cube root, bit by bit from bit [n - 1] down. *)
Fixpoint cbrt_bits (n : nat) (x r : Z) : Z :=
  match n with
  | O => r
  | S n' =>
      let r' := r + 2 ^ Z.of_nat n' in
      cbrt_bits n' x (if r' * r' * r' <=? x then r' else r)
  end.

Definition K : list Z :=
  Eval vm_compute in map (fun p => wrap32 (cbrt_bits 36 (p * 2 ^ 96) 0)) primes.

Definition H0 : list Z :=
  Eval vm_compute in map (fun p => wrap32 (Z.sqrt (p * 2 ^ 64))) (firstn 8 primes).

(** Bytes of a string, and back. *)
Fixpoint bytes_of (s : string) : list Z :=
  match s with
  | EmptyString => []
  | String c s' => Z.of_N (N_of_ascii c) :: bytes_of s'
  end.

Fixpoint str_of (l : list Z) : string :=
  match l with
  | [] => EmptyString
  | b :: l' => String (ascii_of_N (Z.to_N b)) (str_of l')
  end.

(** The [n] low bytes of [x], most significant first. *)
Fixpoint be_bytes (n : nat) (x : Z) : list Z :=
  match n with
  | O => []
  | S n' => Z.shiftr x (8 * Z.of_nat n') mod 256 :: be_bytes n' x
  end.

(** Padding: a 1 bit, zeros up to 56 modulo 64 bytes, the bit length. *)
Definition pad (msg : list Z) : list Z :=
  let len := Z.of_nat (List.length msg) in
  let zeros := Z.to_nat ((55 - len) mod 64) in
  msg ++ 128 :: repeat 0 zeros ++ be_bytes 8 (8 * len).

(** Big-endian 32-bit words of a byte sequence. *)
Fixpoint words_of (l : list Z) : list Z :=
  match l with
  | a :: b :: c :: d :: l' =>
      (((a * 256 + b) * 256 + c) * 256 + d) :: words_of l'
  | _ => []
  end.

(** The message schedule: the block's 16 words, extended to 64. The
    accumulator holds the words produced so far, newest first. *)
Fixpoint schedule (n : nat) (rev_w : list Z) : list Z :=
  match n with
  | O => rev_w
  | S n' =>
      let w := add32 (add32 (sigma1 (nth 1 rev_w 0)) (nth 6 rev_w 0))
                     (add32 (sigma0 (nth 14 rev_w 0)) (nth 15 rev_w 0)) in
      schedule n' (w :: rev_w)
  end.

Definition round (h : list Z) (kw : Z * Z) : list Z :=
  match h with
  | [a; b; c; d; e; f; g; hh] =>
      let t1 := add32 (add32 (add32 hh (Sigma1 e)) (add32 (Ch e f g) (fst kw))) (snd kw) in
      let t2 := add32 (Sigma0 a) (Maj a b c) in
      [add32 t1 t2; a; b; c; add32 d t1; e; f; g]
  | _ => h
  end.

Fixpoint zip_add (x y : list Z) : list Z :=
  match x, y with
  | a :: x', b :: y' => add32 a b :: zip_add x' y'
  | _, _ => []
  end.

Definition compress (h : list Z) (block : list Z) : list Z :=
  let w := rev (schedule 48 (rev block)) in
  zip_add h (fold_left round (combine K w) h).

Fixpoint blocks (n : nat) (ws : list Z) : list (list Z) :=
  match n with
  | O => []
  | S n' => firstn 16 ws :: blocks n' (skipn 16 ws)
  end.

Definition sha256 (msg : list Z) : list Z :=
  let ws := words_of (pad msg) in
  let h := fold_left compress (blocks (List.length ws / 16) ws) H0 in
  flat_map (be_bytes 4) h.

(** [hmac.new(key, msg, hashlib.sha256).digest()]. *)
Definition hmac_sha256 (key msg : list Z) : list Z :=
  let k0 := if (64 <? Z.of_nat (List.length key)) then sha256 key else key in
  let k := k0 ++ repeat 0 (64 - List.length k0) in
  let ipad := map (Z.lxor 54) k in
  let opad := map (Z.lxor 92) k in
  sha256 (opad ++ sha256 (ipad ++ msg)).

(** [.hexdigest()]: two lower-case hexadecimal digits per byte. *)
Definition hexdigit (d : Z) : ascii :=
  ascii_of_N (Z.to_N (if d <? 10 then 48 + d else 87 + d)).

Fixpoint hex (l : list Z) : string :=
  match l with
  | [] => EmptyString
  | b :: l' => String (hexdigit (b / 16)) (String (hexdigit (b mod 16)) (hex l'))
  end.

End Hashlib.

(** ** JSON values and their decoder ([json.loads])

    A decoded document is a [value]; an object is kept as the list of its
    members in order of first appearance, a repeated key overwriting the
    earlier value as a Python [dict] does. A number with a fraction or an
    exponent is kept exactly, as [mantissa * 10 ^ exponent], where Python
    rounds it to a double; the sign of a negative zero is not kept.

    The decoder is that of a text in UTF-8 that [json.loads] takes for
    UTF-8: it does not start with a byte-order mark and holds no NUL byte
    among its first four, by which [json.loads] recognises the other
    encodings. The limits of the interpreter are not modelled: a text
    nested more deeply than the recursion limit allows raises
    [RecursionError], and an integer of more than 4300 digits raises
    [ValueError]. An escaped surrogate that has no partner is written out
    as three bytes. *)

Module Json.

Inductive value : Type :=
| Null
| Bool (b : bool)
| Int (n : Z)
| Float (mantissa exponent : Z)
| NonFinite (literal : string)
| Str (s : string)
| Arr (items : list value)
| Obj (members : list (string * value)).

(** [d[k] = v] on the members of an object. *)
Fixpoint dict_set (k : string) (v : value) (d : list (string * value))
  : list (string * value) :=
  match d with
  | [] => [(k, v)]
  | (k', v') :: d' =>
      if String.eqb k k' then (k, v) :: d' else (k', v') :: dict_set k v d'
  end.

Fixpoint dict_get (k : string) (d : list (string * value)) : option value :=
  match d with
  | [] => None
  | (k', v) :: d' => if String.eqb k k' then Some v else dict_get k d'
  end.

Definition is_ws (c : ascii) : bool :=
  let n := N_of_ascii c in
  ((n =? 32) || (n =? 9) || (n =? 10) || (n =? 13))%N.

Definition skip_ws (s : string) : string := Py.lstrip_by is_ws s.

(** A code point as UTF-8. *)
Definition utf8 (cp : Z) : string :=
  if cp <? 128 then Hashlib.str_of [cp]
  else if cp <? 2048 then Hashlib.str_of [192 + cp / 64; 128 + cp mod 64]
  else if cp <? 65536 then
    Hashlib.str_of [224 + cp / 4096; 128 + (cp / 64) mod 64; 128 + cp mod 64]
  else
    Hashlib.str_of [240 + cp / 262144; 128 + (cp / 4096) mod 64;
                    128 + (cp / 64) mod 64; 128 + cp mod 64].

Definition hex_val (c : ascii) : option Z :=
  let n := Z.of_N (N_of_ascii c) in
  if (48 <=? n) && (n <=? 57) then Some (n - 48)
  else if (97 <=? n) && (n <=? 102) then Some (n - 87)
  else if (65 <=? n) && (n <=? 70) then Some (n - 55)
  else None.

Definition hex4 (s : string) : option (Z * string) :=
  match s with
  | String a (String b (String c (String d r))) =>
      match hex_val a, hex_val b, hex_val c, hex_val d with
      | Some x, Some y, Some z, Some w => Some (((x * 16 + y) * 16 + z) * 16 + w, r)
      | _, _, _, _ => None
      end
  | _ => None
  end.

(** An escaped high surrogate followed by an escaped low surrogate is one
    code point. *)
Definition surrogate_pair (cp : Z) (s : string) : option (Z * string) :=
  if (55296 <=? cp) && (cp <=? 56319) then
    match s with
    | String "\" (String "u" r) =>
        match hex4 r with
        | Some (lo, r') =>
            if (56320 <=? lo) && (lo <=? 57343)
            then Some (65536 + (cp - 55296) * 1024 + (lo - 56320), r')
            else None
        | None => None
        end
    | _ => None
    end
  else None.

(** The characters of a string literal after its opening quote. *)
Fixpoint parse_chars (fuel : nat) (s : string) : option (string * string) :=
  match fuel with
  | O => None
  | S fuel' =>
      match s with
      | EmptyString => None
      | String c r =>
          if ascii_dec c "034" then Some (EmptyString, r)
          else if ascii_dec c "\" then
            match r with
            | String e r' =>
                let simple (x : Z) :=
                  match parse_chars fuel' r' with
                  | Some (t, rest) => Some (String (ascii_of_N (Z.to_N x)) t, rest)
                  | None => None
                  end in
                if ascii_dec e "034" then simple 34
                else if ascii_dec e "\" then simple 92
                else if ascii_dec e "/" then simple 47
                else if ascii_dec e "b" then simple 8
                else if ascii_dec e "f" then simple 12
                else if ascii_dec e "n" then simple 10
                else if ascii_dec e "r" then simple 13
                else if ascii_dec e "t" then simple 9
                else if ascii_dec e "u" then
                  match hex4 r' with
                  | Some (cp, r'') =>
                      let '(cp, r'') := default (cp, r'') (surrogate_pair cp r'') in
                      match parse_chars fuel' r'' with
                      | Some (t, rest) => Some (utf8 cp +:+ t, rest)
                      | None => None
                      end
                  | None => None
                  end
                else None
            | EmptyString => None
            end
          else if (N_of_ascii c <? 32)%N then None
          else
            match parse_chars fuel' r with
            | Some (t, rest) => Some (String c t, rest)
            | None => None
            end
      end
  end.

(** A run of decimal digits: its value, its length and what follows. *)
Fixpoint digits (acc : Z) (n : Z) (s : string) : Z * Z * string :=
  match s with
  | String c r =>
      match Py.digit_val c with
      | Some d => digits (10 * acc + d) (n + 1) r
      | None => (acc, n, s)
      end
  | EmptyString => (acc, n, s)
  end.

Definition parse_exponent (s : string) : option (Z * string) :=
  match s with
  | String c r =>
      if Ascii.eqb c "e" || Ascii.eqb c "E" then
        let '(sign, r1) :=
          match r with
          | String "-" r' => (-1, r')
          | String "+" r' => (1, r')
          | _ => (1, r)
          end in
        let '(e, n, r2) := digits 0 0 r1 in
        if n =? 0 then None else Some (sign * e, r2)
      else None
  | EmptyString => None
  end.

(** A number: an optional minus, an integer part without leading zeros,
    then an optional fraction and an optional exponent. *)
Definition parse_number (s : string) : option (value * string) :=
  let '(sign, s1) :=
    match s with
    | String "-" r => (-1, r)
    | _ => (1, s)
    end in
  let int_part :=
    match s1 with
    | String "0" r => Some (0, r)
    | _ => let '(i, n, r) := digits 0 0 s1 in
           if n =? 0 then None else Some (i, r)
    end in
  match int_part with
  | None => None
  | Some (i, s2) =>
      let frac :=
        match s2 with
        | String "." r =>
            let '(m, n, r') := digits i 0 r in
            if n =? 0 then None else Some (m, n, r')
        | _ => None
        end in
      match frac, parse_exponent (match frac with Some (_, _, r) => r | None => s2 end) with
      | None, None => Some (Int (sign * i), s2)
      | Some (m, n, r), None => Some (Float (sign * m) (- n), r)
      | None, Some (e, r) => Some (Float (sign * i) e, r)
      | Some (m, n, _), Some (e, r) => Some (Float (sign * m) (e - n), r)
      end
  end.

Definition literal (word : string) (v : value) (s : string) : option (value * string) :=
  if Py.startswith word s then Some (v, Py.drop (String.length word) s) else None.

Fixpoint parse_value (fuel : nat) (s : string) : option (value * string) :=
  match fuel with
  | O => None
  | S fuel' =>
      match s with
      | String "{" r =>
          match skip_ws r with
          | String "}" r' => Some (Obj [], r')
          | r1 => parse_members fuel' r1 []
          end
      | String "[" r =>
          match skip_ws r with
          | String "]" r' => Some (Arr [], r')
          | r1 => parse_items fuel' r1 []
          end
      | String "034" r =>
          match parse_chars (S (String.length r)) r with
          | Some (t, rest) => Some (Str t, rest)
          | None => None
          end
      | String "t" _ => literal "true" (Bool true) s
      | String "f" _ => literal "false" (Bool false) s
      | String "n" _ => literal "null" Null s
      | String "N" _ => literal "NaN" (NonFinite "nan") s
      | String "I" _ => literal "Infinity" (NonFinite "inf") s
      | _ =>
          if Py.startswith "-Infinity" s
          then literal "-Infinity" (NonFinite "-inf") s
          else parse_number s
      end
  end
with parse_items (fuel : nat) (s : string) (acc : list value)
  : option (value * string) :=
  match fuel with
  | O => None
  | S fuel' =>
      match parse_value fuel' s with
      | Some (v, r) =>
          match skip_ws r with
          | String "," r' => parse_items fuel' (skip_ws r') (acc ++ [v])
          | String "]" r' => Some (Arr (acc ++ [v]), r')
          | _ => None
          end
      | None => None
      end
  end
with parse_members (fuel : nat) (s : string) (acc : list (string * value))
  : option (value * string) :=
  match fuel with
  | O => None
  | S fuel' =>
      match s with
      | String "034" r =>
          match parse_chars (S (String.length r)) r with
          | Some (k, r1) =>
              match skip_ws r1 with
              | String ":" r2 =>
                  match parse_value fuel' (skip_ws r2) with
                  | Some (v, r3) =>
                      match skip_ws r3 with
                      | String "," r4 => parse_members fuel' (skip_ws r4) (dict_set k v acc)
                      | String "}" r4 => Some (Obj (dict_set k v acc), r4)
                      | _ => None
                      end
                  | None => None
                  end
              | _ => None
              end
          | None => None
          end
      | _ => None
      end
  end.

(** [json.loads(data)]; [None] stands for [JSONDecodeError]. *)
Definition loads (data : string) : option value :=
  match parse_value (S (2 * String.length data)) (skip_ws data) with
  | Some (v, r) => match skip_ws r with EmptyString => Some v | _ => None end
  | None => None
  end.

End Json.

(** ** The process: environment, exceptions and global state *)

(** The exceptions the modelled code can raise. *)
Inductive exn : Type :=
| IndexError
| KeyError
| TypeError
| AttributeError
| ValueError
| OverflowError
| JSONDecodeError
| UnicodeDecodeError
| SystemExit.

(** What the process is given from outside: the variables of [config.env]
    read at start-up, and the wall clock, as the sequence of values that
    successive calls of [time()] return. *)
Record Env : Type := {
  SECRET : string;
  MODS : string;
  COOLDOWN : string;
  CHANNEL_NAME : string;
  clock : nat -> Z
}.

(** [CHANNEL = f'#{os.environ["CHANNEL"]}'] *)
Definition CHANNEL (env : Env) : string := "#" +:+ CHANNEL_NAME env.

Definition GREETINGS : list string :=
  ["hi"; "hello"; "heyo"; "yo"; "hey"; "salut"; "suh"].

Definition crlf : string := String "013" (String "010" EmptyString).

(** *** class CooldownHandler

    The methods read the clock; [reads] counts the calls of [time()] made so
    far and is returned advanced. *)
(** [time()] returns a double, and the sum in [is_useable] is one. The
    clock of the model gives whole seconds; a whole number stands for the
    double of that value, and a number of magnitude [2^1024] or more for
    an infinity. *)

Module Float.

(** The double nearest to a whole number, ties going to the even
    significand of 53 bits. *)
Definition round53 (x : Z) : Z :=
  let a := Z.abs x in
  if a <? 2 ^ 53 then x
  else
    let e := Z.log2 a - 52 in
    let q := a / 2 ^ e in
    let r := a mod 2 ^ e in
    let half := 2 ^ (e - 1) in
    let q' := if (half <? r) || ((half =? r) && Z.odd q) then q + 1 else q in
    Z.sgn x * (q' * 2 ^ e).

(** [float(n)] of an [int], as [n + x] computes it for a double [x];
    [None] is [OverflowError]. *)
Definition of_int (n : Z) : option Z :=
  let x := round53 n in
  if Z.abs x <? 2 ^ 1024 then Some x else None.

(** [x + y] on two doubles. *)
Definition add (x y : Z) : Z := round53 (x + y).

(** [n / d] rounded to the nearest whole number, ties going to the even
    one, for [0 <= n] and [0 < d]. *)
Definition round_div (n d : Z) : Z :=
  let q := n / d in
  let r := n mod d in
  if (d <? 2 * r) || ((d =? 2 * r) && Z.odd q) then q + 1 else q.

(** [int(x)] for the double [x] nearest to the fraction [a / b], where
    [0 < b]: the fraction is rounded to a significand of 53 bits, ties to
    even, and what is behind the point is dropped. [None] stands for a
    fraction beyond the doubles. This is [int(a / b)] on two integers,
    with [None] for [OverflowError]. *)
Definition trunc_quotient (a b : Z) : option Z :=
  let n := Z.abs a in
  if n =? 0 then Some 0
  else
    let e0 := Z.log2 n - Z.log2 b in
    let below := if 0 <=? e0 then n <? b * 2 ^ e0 else n * 2 ^ (- e0) <? b in
    let e := if below : bool then e0 - 1 else e0 in
    let k := e - 52 in
    if 0 <=? k then
      let x := round_div n (b * 2 ^ k) * 2 ^ k in
      if x <? 2 ^ 1024 then Some (Z.sgn a * x) else None
    else Some (Z.sgn a * (round_div (n * 2 ^ (- k)) b / 2 ^ (- k))).

(** The double nearest to [m * 10 ^ e] is zero. *)
Definition is_zero (m e : Z) : bool :=
  (m =? 0) || ((e <? 0) && (Z.abs m * 2 ^ 1075 <=? 10 ^ (- e))).

End Float.

Module CooldownHandler.

Record t : Type := mk {
  command : string;
  cooldown : Z;
  last_used : Z
}.

Definition time (env : Env) (reads : nat) : Z * nat := (clock env reads, S reads).

(** [CooldownHandler(command, cooldown)]; [None] is the [ValueError] of
    [int(cooldown)], raised before the clock is read. *)
Definition __init__ (env : Env) (command cooldown : string) (reads : nat)
  : option (t * nat) :=
  match Py.int_of_str cooldown with
  | None => None
  | Some n =>
      let '(now, reads') := time env reads in
      Some (mk command n now, reads')
  end.

(** [is_useable()]. The clock is read first; then the interval, an [int],
    is added to the last use, a [float]: [None] is the [OverflowError] of
    an interval that no double can hold. *)
Definition is_useable (env : Env) (self : t) (reads : nat) : option bool * t * nat :=
  let '(now, reads1) := time env reads in
  match Float.of_int (cooldown self) with
  | None => (None, self, reads1)
  | Some cooldown' =>
      if now >? Float.add cooldown' (last_used self) then
        let '(now', reads2) := time env reads1 in
        (Some true, mk (command self) (cooldown self) now', reads2)
      else (Some false, self, reads1)
  end.

End CooldownHandler.

(** A row of the table [commands]: [(command, content, mod)]. *)
Definition Row : Type := string * string * Z.

(** Calls to the collaborators that are outside this model. *)
Inductive call : Type :=
| Commit
| Close
| SubscribeToEventsub (topic : string)
| NukeEventsubs
| Authorize
| ThreadJoin.

Record State : Type := {
  seen_users : list string;
  cooldown_handlers : gmap string CooldownHandler.t;
  seen_message_ids : list string;
  commands : list Row;        (* the table behind [cursor] *)
  ircserver : list string;    (* what was sent on the chat socket, oldest first *)
  calls : list call;          (* collaborator calls, oldest first *)
  reads : nat                 (* calls of [time()] so far *)
}.

Definition set_seen_users (f : list string -> list string) (st : State) : State :=
  {| seen_users := f (seen_users st); cooldown_handlers := cooldown_handlers st;
     seen_message_ids := seen_message_ids st; commands := commands st;
     ircserver := ircserver st; calls := calls st; reads := reads st |}.

Definition set_cooldown_handlers
  (f : gmap string CooldownHandler.t -> gmap string CooldownHandler.t)
  (st : State) : State :=
  {| seen_users := seen_users st; cooldown_handlers := f (cooldown_handlers st);
     seen_message_ids := seen_message_ids st; commands := commands st;
     ircserver := ircserver st; calls := calls st; reads := reads st |}.

Definition set_seen_message_ids (f : list string -> list string) (st : State) : State :=
  {| seen_users := seen_users st; cooldown_handlers := cooldown_handlers st;
     seen_message_ids := f (seen_message_ids st); commands := commands st;
     ircserver := ircserver st; calls := calls st; reads := reads st |}.

Definition set_commands (f : list Row -> list Row) (st : State) : State :=
  {| seen_users := seen_users st; cooldown_handlers := cooldown_handlers st;
     seen_message_ids := seen_message_ids st; commands := f (commands st);
     ircserver := ircserver st; calls := calls st; reads := reads st |}.

Definition set_ircserver (f : list string -> list string) (st : State) : State :=
  {| seen_users := seen_users st; cooldown_handlers := cooldown_handlers st;
     seen_message_ids := seen_message_ids st; commands := commands st;
     ircserver := f (ircserver st); calls := calls st; reads := reads st |}.

Definition set_calls (f : list call -> list call) (st : State) : State :=
  {| seen_users := seen_users st; cooldown_handlers := cooldown_handlers st;
     seen_message_ids := seen_message_ids st; commands := commands st;
     ircserver := ircserver st; calls := f (calls st); reads := reads st |}.

Definition set_reads (n : nat) (st : State) : State :=
  {| seen_users := seen_users st; cooldown_handlers := cooldown_handlers st;
     seen_message_ids := seen_message_ids st; commands := commands st;
     ircserver := ircserver st; calls := calls st; reads := n |}.

(** The state of a freshly started process over a given table. *)
Definition initial (table : list Row) : State :=
  {| seen_users := []; cooldown_handlers := ∅; seen_message_ids := [];
     commands := table; ircserver := []; calls := []; reads := 0 |}.

(** *** Computations that change the state and may raise *)

Inductive outcome (A : Type) : Type :=
| Returned (a : A) (st : State)
| Raised (e : exn) (st : State).
Arguments Returned {A} a st.
Arguments Raised {A} e st.

Definition M (A : Type) : Type := State -> outcome A.

#[export] Instance M_ret : MRet M := fun A a st => Returned a st.
#[export] Instance M_bind : MBind M := fun A B f m st =>
  match m st with
  | Returned a st' => f a st'
  | Raised e st' => Raised e st'
  end.

Definition raise {A : Type} (e : exn) : M A := fun st => Raised e st.
Definition gets {A : Type} (f : State -> A) : M A := fun st => Returned (f st) st.
Definition modify (f : State -> State) : M unit := fun st => Returned tt (f st).

Definition final_state {A : Type} (o : outcome A) : State :=
  match o with
  | Returned _ st => st
  | Raised _ st => st
  end.

(** [l[i]] on a Python list. *)
Definition item {A : Type} (l : list A) (i : nat) : M A :=
  match l !! i with
  | Some x => mret x
  | None => raise IndexError
  end.

(** [call(...)] of a collaborator. *)
Definition do_call (c : call) : M unit := modify (set_calls (fun l => l ++ [c])).

(** [sendmsg(msg)]: one [PRIVMSG] line to the channel. *)
Definition sendmsg (env : Env) (msg : string) : M unit :=
  modify (set_ircserver (fun l => l ++ ["PRIVMSG " +:+ CHANNEL env +:+ " :" +:+ msg +:+ crlf])).

(** ** helpers.py *)

(** [verify_signature(secret, es_id, es_timestamp, es_body_bytes, es_sig)] *)
Definition verify_signature
  (secret es_id es_timestamp es_body_bytes es_sig : string) : bool :=
  let hmac_msg := es_id +:+ es_timestamp +:+ es_body_bytes in
  let calculated_signature :=
    Hashlib.hex (Hashlib.hmac_sha256 (Hashlib.bytes_of secret)
                                     (Hashlib.bytes_of hmac_msg)) in
  String.eqb calculated_signature (Py.removeprefix "sha256=" es_sig).

(** ** main.py: the webhook request handler *)

Record Request : Type := {
  path : string;
  headers : list (string * string);
  rfile : string         (* what the client sent after the headers *)
}.

(** [self.headers[name]]: the first header of that name, compared without
    regard to case; [None] when there is none. *)
Fixpoint lookup_header (name : string) (hs : list (string * string)) : option string :=
  match hs with
  | [] => None
  | (k, v) :: hs' =>
      if String.eqb (Py.lower k) (Py.lower name) then Some v
      else lookup_header name hs'
  end.

Definition header (req : Request) (name : string) : option string :=
  lookup_header name (headers req).

(** What a handler writes back on the connection. *)
Inductive http_op : Type :=
| send_response (code : Z)
| send_header (keyword value : string)
| end_headers
| wfile_write (data : string).

Definition _set_response : list http_op :=
  [send_response 200; send_header "Content-type" "text/html"; end_headers].

(** [v[k]] on a decoded JSON value. *)
Definition subscript (v : Json.value) (k : string) : M Json.value :=
  match v with
  | Json.Obj d =>
      match Json.dict_get k d with
      | Some x => mret x
      | None => raise KeyError
      end
  | _ => raise TypeError
  end.

(** [v.encode()]: only a [str] has the method. *)
Definition str_encode (v : Json.value) : M string :=
  match v with
  | Json.Str s => mret s
  | _ => raise AttributeError
  end.

(** [int(v)] *)
Definition py_int (v : Json.value) : M Z :=
  match v with
  | Json.Int n => mret n
  | Json.Bool b => mret (if b then 1 else 0)
  | Json.Str s =>
      match Py.int_of_str s with
      | Some n => mret n
      | None => raise ValueError
      end
  | Json.Float m e =>
      match (if 0 <=? e then Float.trunc_quotient (m * 10 ^ e) 1
             else Float.trunc_quotient m (10 ^ (- e))) with
      | Some n => mret n
      | None => raise OverflowError
      end
  | Json.NonFinite l =>
      if String.eqb l "nan" then raise ValueError else raise OverflowError
  | _ => raise TypeError
  end.

(** [int(n / d)] on two integers, [d] being positive. *)
Definition int_of_quotient (n d : Z) : M Z :=
  match Float.trunc_quotient n d with
  | Some q => mret q
  | None => raise OverflowError
  end.

(** [repr(s)] of a string: the quote is chosen as Python chooses it; the
    backslash and the quote are escaped, the newline, return and tab are
    written with their letters and the other control characters in
    hexadecimal. *)
Fixpoint repr_chars (q : ascii) (s : string) : string :=
  match s with
  | EmptyString => EmptyString
  | String c r =>
      let rest := repr_chars q r in
      let n := Z.of_N (N_of_ascii c) in
      if Ascii.eqb c "\" then "\\" +:+ rest
      else if Ascii.eqb c q then String "\" (String q rest)
      else if Ascii.eqb c "010" then "\n" +:+ rest
      else if Ascii.eqb c "013" then "\r" +:+ rest
      else if Ascii.eqb c "009" then "\t" +:+ rest
      else if (n <? 32) || (n =? 127) then
        "\x" +:+ String (Hashlib.hexdigit (n / 16)) (String (Hashlib.hexdigit (n mod 16)) rest)
      else String c rest
  end.

Definition repr_str (s : string) : string :=
  let q : ascii := if Py.mem_ascii "'" s && negb (Py.mem_ascii "034" s) then "034"%char else "'"%char in
  String q (repr_chars q s +:+ String q EmptyString).

(** The decimal form of [m * 10 ^ e]; Python prints the shortest form of
    the nearest double instead, and switches to exponent notation for very
    large and very small magnitudes. *)
Definition str_of_float (m e : Z) : string :=
  if 0 <=? e then Py.str_of_Z (m * 10 ^ e) +:+ ".0"
  else
    let scale := 10 ^ (- e) in
    let frac := Py.str_of_Z (Z.abs m mod scale + scale) in
    let frac := Py.rstrip_by (fun c => Ascii.eqb c "0") (Py.drop 1 frac) in
    (if m <? 0 then "-" else EmptyString) +:+ Py.str_of_Z (Z.abs m / scale) +:+ "." +:+
    (if String.eqb frac EmptyString then "0" else frac).

(** [repr(v)] and [str(v)], the latter being what an f-string inserts.
    Exact for strings outside a list or an object, for integers of at
    most 4300 digits, for booleans and for [None]. Inside a list or an
    object, characters above U+007E are kept as they are, where [repr]
    escapes those that cannot be printed; a number with a fraction or an
    exponent is written as [str_of_float] writes it. *)
Fixpoint py_repr (v : Json.value) : string :=
  match v with
  | Json.Null => "None"
  | Json.Bool b => if b then "True" else "False"
  | Json.Int n => Py.str_of_Z n
  | Json.Float m e => str_of_float m e
  | Json.NonFinite l => l
  | Json.Str s => repr_str s
  | Json.Arr items => "[" +:+ Py.join ", " (map py_repr items) +:+ "]"
  | Json.Obj members =>
      "{" +:+ Py.join ", " (map (fun kv => repr_str (fst kv) +:+ ": " +:+ py_repr (snd kv)) members)
          +:+ "}"
  end.

Definition py_str (v : Json.value) : string :=
  match v with
  | Json.Str s => s
  | _ => py_repr v
  end.

(** [v == False] *)
Definition eq_False (v : Json.value) : bool :=
  match v with
  | Json.Bool b => negb b
  | Json.Int n => n =? 0
  | Json.Float m e => Float.is_zero m e
  | _ => false
  end.

(** A header value that is present and not empty is true in a test. *)
Definition truthy (o : option string) : bool :=
  match o with
  | Some (String _ _) => true
  | _ => false
  end.

(** [h == 'literal'] for a header value that may be [None]. *)
Definition is_str (o : option string) (literal : string) : bool :=
  match o with
  | Some s => String.eqb s literal
  | None => false
  end.

(** The call [verify_signature(SECRET, message_id, eventsub_timestamp,
    post_data, eventsub_signature)] as [do_POST] makes it: a header that is
    missing is [None], on which [.encode()] and [.removeprefix()] raise. *)
Definition call_verify_signature (secret es_id : string)
  (es_timestamp : option string) (es_body_bytes : string) (es_sig : option string)
  : M bool :=
  match es_timestamp, es_sig with
  | Some ts, Some sig => mret (verify_signature secret es_id ts es_body_bytes sig)
  | _, _ => raise AttributeError
  end.

(** The branch of [do_POST] on a notification whose signature was verified. *)
Definition notification (env : Env) (req : Request) (payload : Json.value)
  : M (list http_op) :=
  let subscription_type := header req "Twitch-Eventsub-Subscription-Type" in
  event ← subscript payload "event";
  user_name ← subscript event "user_name";
  if is_str subscription_type "channel.follow" then
    sendmsg env ("Thank you for following " +:+ py_str user_name +:+ "!");;
    mret _set_response
  else if is_str subscription_type "channel.subscribe" then
    event ← subscript payload "event";
    tier ← subscript event "tier";
    tier ← py_int tier;
    sub_tier ← int_of_quotient tier 1000;
    sendmsg env (py_str user_name +:+ " subscribed at tier " +:+ Py.str_of_Z sub_tier
                 +:+ "! Thank you for the support!");;
    mret _set_response
  else if is_str subscription_type "channel.cheer" then
    event ← subscript payload "event";
    bits ← subscript event "bits";
    event ← subscript payload "event";
    is_anonymous ← subscript event "is_anonymous";
    (if eq_False is_anonymous then
       sendmsg env (py_str user_name +:+ " cheered " +:+ py_str bits
                    +:+ " bits! Thank you for the support!")
     else
       sendmsg env ("Anonymous cheered " +:+ py_str bits
                    +:+ " bits! Thank you for the support!"));;
    mret _set_response
  else mret [].

(** The branch of [do_POST] entered once the signature is verified: the
    identifier is recorded, then the body is decoded and handled. *)
Definition verified (env : Env) (req : Request) (post_data message_id : string)
  : M (list http_op) :=
  modify (set_seen_message_ids (fun l => l ++ [message_id]));;
  payload ← (match Json.loads post_data with
             | Some v => mret v
             | None => raise JSONDecodeError
             end);
  let message_type := header req "Twitch-Eventsub-Message-Type" in
  if is_str message_type "webhook_callback_verification" then
    eventsub_challenge ← subscript payload "challenge";
    challenge_bytes ← str_encode eventsub_challenge;
    mret [send_response 200;
          send_header "Content-Length"
            (Py.str_of_Z (Z.of_nat (String.length challenge_bytes)));
          end_headers;
          wfile_write challenge_bytes]
  else if is_str message_type "notification" then
    notification env req payload
  else mret [].

(** The first lines of [do_POST]: the body is the first [Content-Length]
    bytes sent (all of them for a negative length), and it is decoded as
    UTF-8 in order to be logged. A missing header is the [TypeError] of
    [int(None)]. *)
Definition post_data (req : Request) : exn + string :=
  match header req "Content-Length" with
  | None => inl TypeError
  | Some s =>
      match Py.int_of_str s with
      | None => inl ValueError
      | Some content_length =>
          let data := if content_length <? 0 then rfile req
                      else Py.take (Z.to_nat content_length) (rfile req) in
          if Py.utf8_valid data then inr data else inl UnicodeDecodeError
      end
  end.

(** The rest of [do_POST], on the body that was read. *)
Definition handle_post (env : Env) (req : Request) (post_data : string)
  : M (list http_op) :=
  if truthy (header req "Twitch-Eventsub-Message-Id") then
    let message_id := default EmptyString (header req "Twitch-Eventsub-Message-Id") in
    let eventsub_timestamp := header req "Twitch-Eventsub-Message-Timestamp" in
    let eventsub_signature := header req "Twitch-Eventsub-Message-Signature" in
    seen ← gets seen_message_ids;
    if bool_decide (message_id ∈ seen) then mret _set_response
    else
      is_verified ← call_verify_signature (SECRET env) message_id eventsub_timestamp
                                           post_data eventsub_signature;
      if is_verified : bool then verified env req post_data message_id
      else mret [send_response 403; end_headers]
  else
    mret (_set_response ++ [wfile_write ("POST request for " +:+ path req)]).

(** [RequestHandler.do_POST]; the value returned is the response written. *)
Definition do_POST (env : Env) (req : Request) : M (list http_op) :=
  match post_data req with
  | inl e => raise e
  | inr data => handle_post env req data
  end.

(** ** main.py: the stored commands *)

(** [SELECT ... FROM commands WHERE command = :command] followed by
    [fetchone()]: the first row of that name, compared byte for byte. *)
Fixpoint select (command : string) (table : list Row) : option Row :=
  match table with
  | [] => None
  | (c, content, mod_) :: table' =>
      if String.eqb c command then Some (c, content, mod_) else select command table'
  end.

(** [DELETE FROM commands WHERE command = :command] *)
Definition delete (command : string) (table : list Row) : list Row :=
  filter (fun r : Row => String.eqb r.1.1 command = false) table.

(** [add_command(message, cursor)] *)
Definition add_command (message : string) : M bool :=
  let splitmsg := Py.split_char " " message in
  flag ← item splitmsg 1;
  '(mod_, command, content) ←
    (if String.eqb (Py.lower flag) "mod" then
       name ← item splitmsg 2;
       mret (1, Py.lower name, Py.join " " (drop 3 splitmsg))
     else
       name ← item splitmsg 1;
       mret (0, Py.lower name, Py.join " " (drop 2 splitmsg)));
  table ← gets commands;
  match select command table with
  | None =>
      modify (set_commands (fun t => t ++ [(command, content, mod_)]));;
      mret true
  | Some _ => mret false
  end.

(** [delete_command(message, cursor)] *)
Definition delete_command (message : string) : M unit :=
  let splitmsg := Py.split_char " " message in
  command ← item splitmsg 1;
  modify (set_commands (delete command)).

(** [clear_seen_users()] *)
Definition clear_seen_users (env : Env) : M unit :=
  modify (set_seen_users (fun _ => []));;
  sendmsg env "/me Seen users list cleared!".

(** [user in MODS]: [MODS] is the string read from the environment, so
    this is Python's test of one string occurring in another. *)
Definition in_MODS (env : Env) (user : string) : bool := Py.contains user (MODS env).

(** [command_handler(command, user, cursor)]; the table is always readable
    here, so the [except sqlite3.Error] clause has no counterpart. *)
Definition command_handler (env : Env) (command user : string) : M (option string) :=
  table ← gets commands;
  match select command table with
  | None => mret None
  | Some (_, content, mod_) =>
      if in_MODS env user then mret (Some content)
      else if mod_ =? 0 then
        handlers ← gets cooldown_handlers;
        n ← gets reads;
        match handlers !! command with
        | Some cmd =>
            let '(useable, cmd', n') := CooldownHandler.is_useable env cmd n in
            modify (set_reads n');;
            match useable with
            | Some true =>
                modify (set_cooldown_handlers <[command := cmd']>);;
                mret (Some content)
            | Some false => mret None
            | None => raise OverflowError
            end
        | None =>
            match CooldownHandler.__init__ env command (COOLDOWN env) n with
            | Some (cmd, n') =>
                modify (set_reads n');;
                modify (set_cooldown_handlers <[command := cmd]>);;
                mret (Some content)
            | None => raise ValueError
            end
        end
      else mret None
  end.

(** [shut_down()] *)
Definition shut_down (env : Env) : M unit :=
  do_call NukeEventsubs;;
  sendmsg env "/me goes to sleep ResidentSleeper";;
  do_call ThreadJoin;;
  raise SystemExit.

(** The chain of hard-coded commands of [command], entered when no stored
    command answered; [message] has lost its leading marker. *)
Definition builtin (env : Env) (message cmd name : string) : M unit :=
  if String.eqb cmd "so" && in_MODS env name then
    shoutout ← item (Py.split_char " " message) 1;
    sendmsg env ("Check out " +:+ shoutout +:+ " at https://twitch.tv/" +:+ shoutout +:+ " !")
  else if String.eqb cmd "addcom" && in_MODS env name then
    added ← add_command message;
    if added : bool then do_call Commit else mret tt
  else if String.eqb cmd "delcom" && in_MODS env name then
    delete_command message;;
    do_call Commit
  else if String.eqb cmd "esfollow" && in_MODS env name then
    do_call (SubscribeToEventsub "follow")
  else if String.eqb cmd "essub" && in_MODS env name then
    do_call (SubscribeToEventsub "subscribe");;
    do_call (SubscribeToEventsub "cheer")
  else if String.eqb cmd "nukeeventsubs" && in_MODS env name then
    do_call NukeEventsubs
  else if String.eqb cmd "disconnect" && in_MODS env name then
    do_call Close;;
    shut_down env
  else if String.eqb cmd "auth" && in_MODS env name then
    do_call Authorize
  else mret tt.

(** [command(message, name, cursor, dbconnection)]. A value of
    [command_handler] that is [None] or the empty string is false in the
    test of the first [if], and control passes to the hard-coded chain. *)
Definition command (env : Env) (message name : string) : M unit :=
  let message := Py.tail message in
  cmd ← item (Py.split_char " " message) 0;
  dbcmd ← command_handler env cmd name;
  match dbcmd with
  | Some (String c text) => sendmsg env (String c text)
  | _ => builtin env message cmd name
  end.

(** ** main.py: the read loop *)

(** [s[0]] on a string. *)
Definition first_char (s : string) : M ascii :=
  match s with
  | String c _ => mret c
  | EmptyString => raise IndexError
  end.

(** One turn of the [while] loop of [main], from the decoded line on. *)
Definition main_loop (env : Env) (ircmsg : string) : M unit :=
  let ircmsg := Py.strip_chars "nr" ircmsg in
  if negb (Py.find "PRIVMSG" ircmsg =? -1) then
    prefix ← item (Py.split1 "!" ircmsg) 0;
    let name := Py.strip (Py.tail prefix) in
    tail ← item (Py.split1 "PRIVMSG" ircmsg) 1;
    text ← item (Py.split1 ":" tail) 1;
    let message := Py.strip text in
    c ← first_char message;
    if Ascii.eqb c "!" then command env message name
    else if existsb (fun word => Py.contains word (Py.lower message)) GREETINGS then
      seen ← gets seen_users;
      if bool_decide (name ∈ seen) then mret tt
      else
        sendmsg env ("Hi " +:+ name +:+ " :)");;
        modify (set_seen_users (fun l => l ++ [name]))
    else mret tt
  else if negb (Py.find "PING" ircmsg =? -1) then
    modify (set_ircserver (fun l => l ++ ["PONG :tmi.twitch.tv" +:+ crlf]))
  else mret tt.

(** Several lines in turn, stopping at the first exception. *)
Fixpoint main_loops (env : Env) (lines : list string) : M unit :=
  match lines with
  | [] => mret tt
  | l :: lines' => main_loop env l;; main_loops env lines'
  end.

(** ** [urllib.parse]

    What [do_GET] uses of the library, on a request target in origin form:
    a path that starts with one slash, as the redirect of the authorization
    service has it. *)

Module Urllib.

(** [urlsplit] first removes tabs and line breaks wherever they stand. *)
Fixpoint remove_unsafe (url : string) : string :=
  match url with
  | EmptyString => EmptyString
  | String c url' =>
      if Ascii.eqb c "009" || Ascii.eqb c "010" || Ascii.eqb c "013" then remove_unsafe url'
      else String c (remove_unsafe url')
  end.

(** [urlparse(url).query]: what stands between the first question mark
    and the first number sign. [None] for a target that is not in origin
    form, of which the library would first split off a scheme or an
    authority. *)
Definition urlparse_query (url : string) : option string :=
  let url := remove_unsafe url in
  if Py.startswith "/" url && negb (Py.startswith "//" url) then
    let url := hd EmptyString (Py.split1 "#" url) in
    match Py.split1 "?" url with
    | [_; query] => Some query
    | _ => Some EmptyString
    end
  else None.

(** [unquote_to_bytes]: a percent sign followed by two hexadecimal digits
    is the byte they write; any other percent sign stays. *)
Fixpoint unquote_to_bytes (s : string) : string :=
  match s with
  | EmptyString => EmptyString
  | String c r =>
      if Ascii.eqb c "%" then
        match r with
        | String a (String b r') =>
            match Json.hex_val a, Json.hex_val b with
            | Some x, Some y => String (ascii_of_N (Z.to_N (16 * x + y))) (unquote_to_bytes r')
            | _, _ => String c (unquote_to_bytes r)
            end
        | _ => String c (unquote_to_bytes r)
        end
      else String c (unquote_to_bytes r)
  end.

(** U+FFFD, which stands for what cannot be decoded. *)
Definition replacement : string := String "239" (String "191" (String "189" EmptyString)).

(** [data.decode('utf-8', 'replace')]: [seen] holds the bytes of the
    character being read, of which [more] are awaited, the next between
    [lo] and [hi]. A sequence that breaks off is replaced as a whole, and
    the byte that broke it is read again as the start of a character. *)
Fixpoint decode_replace (seen : string) (more : nat) (lo hi : N) (s : string) : string :=
  match s with
  | EmptyString => match more with O => EmptyString | S _ => replacement end
  | String c r =>
      let n := N_of_ascii c in
      let first :=
        if (n <=? 127)%N then String c (decode_replace EmptyString 0 128 191 r)
        else if ((194 <=? n) && (n <=? 223))%N
          then decode_replace (String c EmptyString) 1 128 191 r
        else if (n =? 224)%N then decode_replace (String c EmptyString) 2 160 191 r
        else if (n =? 237)%N then decode_replace (String c EmptyString) 2 128 159 r
        else if ((225 <=? n) && (n <=? 239))%N
          then decode_replace (String c EmptyString) 2 128 191 r
        else if (n =? 240)%N then decode_replace (String c EmptyString) 3 144 191 r
        else if (n =? 244)%N then decode_replace (String c EmptyString) 3 128 143 r
        else if ((241 <=? n) && (n <=? 243))%N
          then decode_replace (String c EmptyString) 3 128 191 r
        else replacement +:+ decode_replace EmptyString 0 128 191 r in
      match more with
      | O => first
      | S O =>
          if ((lo <=? n) && (n <=? hi))%N
          then seen +:+ String c (decode_replace EmptyString 0 128 191 r)
          else replacement +:+ first
      | S more' =>
          if ((lo <=? n) && (n <=? hi))%N
          then decode_replace (seen +:+ String c EmptyString) more' 128 191 r
          else replacement +:+ first
      end
  end.

(** [unquote]: the escapes of every run of ASCII characters are decoded;
    [run] is the run being read. *)
Fixpoint unquote_runs (run : string) (s : string) : string :=
  match s with
  | EmptyString => decode_replace EmptyString 0 128 191 (unquote_to_bytes run)
  | String c r =>
      if (N_of_ascii c <=? 127)%N then unquote_runs (run +:+ String c EmptyString) r
      else decode_replace EmptyString 0 128 191 (unquote_to_bytes run)
             +:+ String c (unquote_runs EmptyString r)
  end.

Definition unquote (s : string) : string :=
  if Py.mem_ascii "%" s then unquote_runs EmptyString s else s.

(** [s.replace('+', ' ')] *)
Fixpoint replace_plus (s : string) : string :=
  match s with
  | EmptyString => EmptyString
  | String c r => String (if Ascii.eqb c "+" then " "%char else c) (replace_plus r)
  end.

(** [parse_qsl(qs)]: the fields that have an equals sign and a value that
    is not empty, in order. *)
Definition parse_qsl (qs : string) : list (string * string) :=
  flat_map
    (fun name_value =>
       match name_value with
       | EmptyString => []
       | _ =>
           match Py.split1 "=" name_value with
           | [name; String c value] =>
               [(unquote (replace_plus name), unquote (replace_plus (String c value)))]
           | _ => []
           end
       end)
    (match qs with EmptyString => [] | _ => Py.split_char "&" qs end).

(** [parse_qs(qs)]: every name with the list of its values. *)
Definition parse_qs (qs : string) : gmap string (list string) :=
  fold_left
    (fun parsed_result '(name, value) =>
       match parsed_result !! name with
       | Some values => <[name := values ++ [value]]> parsed_result
       | None => <[name := [value]]> parsed_result
       end)
    (parse_qsl qs) ∅.

End Urllib.

(** ** main.py: the authorization callback *)

(** What [do_GET] does, in order: it writes to the connection, and it
    asks the authorization service for a token in exchange for a code. *)
Inductive get_op : Type :=
| reply (op : http_op)
| token_request (code : string).

(** [parse_qs(parsed)[name][0]]; [None] is the [KeyError]. *)
Definition first_value (name parsed : string) : option string :=
  match Urllib.parse_qs parsed !! name with
  | Some (value :: _) => Some value
  | _ => None
  end.

(** [RequestHandler.do_GET]. [STATE] is the variable of that name in the
    environment of the process, which the command [auth] sets. Every
    exception raised under [try] is swallowed; the request for a token is
    taken to return. [None] where the target is not in origin form. *)
Definition do_GET (STATE : option string) (path : string) : option (list get_op) :=
  match Urllib.urlparse_query path with
  | None => None
  | Some parsed =>
      let tried :=
        match first_value "code" parsed, first_value "state" parsed, STATE with
        | Some code, Some state, Some local =>
            if String.eqb state local
            then token_request code :: map reply _set_response
            else [reply (send_response 403); reply end_headers]
        | _, _, _ => []
        end in
      Some (tried ++ map reply _set_response
                  ++ [reply (wfile_write ("GET request for " +:+ path))])
  end.

(** ** main.py and helpers.py: the answers of the Twitch API

    [requests] hands the decoded answer to the caller; the two functions
    below start from that value. *)

(** What [for i in v] visits: a list gives its items, an object its keys,
    a string its characters; [None] is the [TypeError] of a value that
    cannot be iterated. *)
Definition py_iter (v : Json.value) : option (list Json.value) :=
  match v with
  | Json.Arr items => Some items
  | Json.Obj members => Some (map (fun kv => Json.Str (fst kv)) members)
  | Json.Str s => Some (map Json.Str (Py.chars s))
  | _ => None
  end.

(** The loop of [get_user_id]. *)
Fixpoint last_user_id (users : list Json.value) (user_id : string) : M string :=
  match users with
  | [] => mret user_id
  | i :: users' =>
      v ← subscript i "_id";
      last_user_id users' (py_str v)
  end.

(** [get_user_id(user)], from the answer [data] of [get_user_data] on. *)
Definition get_user_id (data : Json.value) : M string :=
  users ← subscript data "users";
  match py_iter users with
  | Some users => last_user_id users EmptyString
  | None => raise TypeError
  end.

(** The loop of [nuke_eventsubs]: the URLs of the [DELETE] requests made,
    in order, and the exception that ended the loop, if any. *)
Fixpoint unsubscribe (subs : list Json.value) : list string * option exn :=
  match subs with
  | [] => ([], None)
  | Json.Obj members :: subs' =>
      match Json.dict_get "id" members with
      | Some v =>
          let '(urls, e) := unsubscribe subs' in
          (("https://api.twitch.tv/helix/eventsub/subscriptions?id=" +:+ py_str v) :: urls, e)
      | None => ([], Some KeyError)
      end
  | _ :: _ => ([], Some TypeError)
  end.

(** [nuke_eventsubs(access_token, client_id)], from the answer
    [subs_json] of the listing on. *)
Definition nuke_eventsubs (subs_json : Json.value) : list string * option exn :=
  match subs_json with
  | Json.Obj members =>
      match Json.dict_get "data" members with
      | None => ([], Some KeyError)
      | Some data =>
          match py_iter data with
          | Some subs => unsubscribe subs
          | None => ([], Some TypeError)
          end
      end
  | _ => ([], Some TypeError)
  end.

(** ** Notions used in the statements *)

(** The signature the sender computes: the hexadecimal HMAC-SHA256 of
    identifier, timestamp and body, keyed by the secret. *)
Definition sign (secret es_id es_timestamp es_body_bytes : string) : string :=
  Hashlib.hex (Hashlib.hmac_sha256 (Hashlib.bytes_of secret)
                 (Hashlib.bytes_of (es_id +:+ es_timestamp +:+ es_body_bytes))).

(** [s'] is [s] with exactly one byte replaced by another. *)
Definition one_byte_changed (s s' : string) : Prop :=
  exists pre c c' post,
    c <> c' /\ s = pre +:+ String c post /\ s' = pre +:+ String c' post.

(** One byte of exactly one of identifier, timestamp and body was changed. *)
Definition tampered (es_id ts body es_id' ts' body' : string) : Prop :=
  (one_byte_changed es_id es_id' /\ ts' = ts /\ body' = body)
  \/ (es_id' = es_id /\ one_byte_changed ts ts' /\ body' = body)
  \/ (es_id' = es_id /\ ts' = ts /\ one_byte_changed body body').

(** Two distinct messages with the same HMAC-SHA256 under a key. *)
Definition collide (secret m m' : string) : Prop :=
  m <> m' /\
  Hashlib.hmac_sha256 (Hashlib.bytes_of secret) (Hashlib.bytes_of m)
  = Hashlib.hmac_sha256 (Hashlib.bytes_of secret) (Hashlib.bytes_of m').

Definition is_byte (b : Z) : Prop := 0 <= b < 256.

(** The two states agree on everything but the chat socket. *)
Definition same_but_chat (st st' : State) : Prop :=
  seen_users st' = seen_users st
  /\ cooldown_handlers st' = cooldown_handlers st
  /\ seen_message_ids st' = seen_message_ids st
  /\ commands st' = commands st
  /\ calls st' = calls st
  /\ reads st' = reads st.

(** A computation that, whatever its outcome, touches the chat socket only. *)
Definition chat_only {A : Type} (m : M A) : Prop :=
  forall st, same_but_chat st (final_state (m st)).

(** The two states agree on everything but the cooldown handlers and the
    number of clock readings. *)
Definition same_but_cooldown (st st' : State) : Prop :=
  seen_users st' = seen_users st
  /\ seen_message_ids st' = seen_message_ids st
  /\ commands st' = commands st
  /\ ircserver st' = ircserver st
  /\ calls st' = calls st.

(** A whole number that a double holds exactly, and one within the range
    of doubles. *)
Definition exact (x : Z) : Prop := Z.abs x < 2 ^ 53.

Definition fits_double (x : Z) : Prop := is_Some (Float.of_int x).

(** The state after a command's handler was stored as [h] and the clock
    had been read [n] times. *)
Definition stamp (command : string) (h : CooldownHandler.t) (n : nat) (st : State)
  : State :=
  set_cooldown_handlers <[command := h]> (set_reads n st).

(** The fields [add_command] reads from its message: the flag, the name
    and the content; [None] when an index is out of range. *)
Definition addcom_fields (message : string) : option (Z * string * string) :=
  let splitmsg := Py.split_char " " message in
  match splitmsg !! 1%nat with
  | None => None
  | Some flag =>
      if String.eqb (Py.lower flag) "mod" then
        match splitmsg !! 2%nat with
        | Some name => Some (1, Py.lower name, Py.join " " (drop 3 splitmsg))
        | None => None
        end
      else Some (0, Py.lower flag, Py.join " " (drop 2 splitmsg))
  end.

(** ** A concrete channel

    One moderator, a cooldown of thirty seconds, and a clock that advances
    by one second at every reading. *)

Definition channel : Env :=
  {| SECRET := "s3cret"; MODS := "kjlander"; COOLDOWN := "30";
     CHANNEL_NAME := "kjlander"; clock := fun n => Z.of_nat n |}.



(** JSON text written with an apostrophe for every double quote. *)
Fixpoint json_text (s : string) : string :=
  match s with
  | EmptyString => EmptyString
  | String c r => String (if Ascii.eqb c "'" then "034"%char else c) (json_text r)
  end.

Definition timestamp : string := "2021-11-16T10:11:12Z".

(** A request as the notification service sends it. *)
Definition eventsub (message_id signature message_type subscription_type body : string)
  : Request :=
  {| path := "/";
     headers := [("Content-Length", Py.str_of_Z (Z.of_nat (String.length body)));
                 ("Twitch-Eventsub-Message-Id", message_id);
                 ("Twitch-Eventsub-Message-Timestamp", timestamp);
                 ("Twitch-Eventsub-Message-Signature", signature);
                 ("Twitch-Eventsub-Message-Type", message_type);
                 ("Twitch-Eventsub-Subscription-Type", subscription_type)];
     rfile := body |}.

(** A correctly signed notification whose body is not JSON. *)
Definition broken_notification : Request :=
  eventsub "m1" "sha256=8540d32cce1ea895a94bf6d1c04765595c6a6301b6682305200c1bb0071b7107"
           "notification" "channel.follow" "{".

(** The same body under a signature that is not the sender's. *)
Definition forged_notification : Request :=
  eventsub "m1" "sha256=0000000000000000000000000000000000000000000000000000000000000000"
           "notification" "channel.follow" "{".

(** A notification without the timestamp header. *)
Definition undated_notification : Request :=
  {| path := "/";
     headers := [("Content-Length", "1");
                 ("Twitch-Eventsub-Message-Id", "m1");
                 ("Twitch-Eventsub-Message-Signature", "sha256=00");
                 ("Twitch-Eventsub-Message-Type", "notification")];
     rfile := "{" |}.

(** A request that does not come from the notification service. *)
Definition foreign_post : Request :=
  {| path := "/hook"; headers := [("Content-Length", "1")]; rfile := "{" |}.

(** A request without any header. *)
Definition bare_post : Request :=
  {| path := "/"; headers := []; rfile := EmptyString |}.

Definition ada : string := json_text "{'event': {'user_name': 'Ada'}}".

Definition ada_signature : string :=
  "sha256=1fe4a03b793b03d6c5d5d14e73d877d5e26e946747bb32fc2677401a2cc87770".

(** Correctly signed notifications of a follow and of a gifted subscription. *)
Definition follow_notification : Request :=
  eventsub "m2" ada_signature "notification" "channel.follow" ada.

Definition gift_notification : Request :=
  eventsub "m2" ada_signature "notification" "channel.subscription.gift" ada.

(** The notifications of the design document's scenarios. *)
Definition cheer_notification : Request :=
  eventsub "m3" "sha256=dd5fef7a44a5c9c9c31e493c4145d2fda229d2204bc05391c20658560454cdb4"
    "notification" "channel.cheer"
    (json_text "{'event': {'user_name': 'Ada', 'bits': 100, 'is_anonymous': false}}").

Definition challenge_request : Request :=
  eventsub "m4" "sha256=6b59b02f0b9d84689d2384014852eaa0ba6cafed8dcffcd2af6b991b441fc37c"
    "webhook_callback_verification" "channel.follow"
    (json_text "{'challenge':'abc123'}").

Definition subscribe_notification : Request :=
  eventsub "m5" "sha256=bd5ddd0aaafa2b211f787cc89563753940e9708c22a2718e9218acf71e4d4da4"
    "notification" "channel.subscribe"
    (json_text "{'event': {'user_name': 'Ada', 'tier': '2000'}}").

(** The state of a fresh process once the given identifiers were seen. *)
Definition seen_only (ids : list string) : State :=
  set_seen_message_ids (fun _ => ids) (initial []).

(** The table holding the stored command [greet]. *)
Definition greet_table : list Row := [("greet", "Hello there!", 0)].

(** A chat line as the server relays it. *)
Definition privmsg (sender text : string) : string :=
  ":" +:+ sender +:+ "!" +:+ sender +:+ "@" +:+ sender
      +:+ ".tmi.twitch.tv PRIVMSG #kjlander :" +:+ text +:+ crlf.

(** The table holding one stored command with an empty template. *)
Definition empty_foo : list Row := [("foo", EmptyString, 0)].

(** ** Further notions used in the statements *)

(** The names under which a table stores commands. *)
Definition names (table : list Row) : list string := map (fun r : Row => r.1.1) table.

(** A word: a text without a space. *)
Definition spaceless (s : string) : Prop := Py.mem_ascii " " s = false.

Definition lower_case (s : string) : Prop := Py.lower s = s.

(** A table as [add_command] builds it: no name is stored twice, and
    every name is in lower case. *)
Definition well_formed (table : list Row) : Prop :=
  NoDup (names table) /\ Forall lower_case (names table).

(** A computation that, whatever its outcome, takes every state to one
    related to it by [R]. *)
Definition keeps {A : Type} (R : State -> State -> Prop) (m : M A) : Prop :=
  forall st, R st (final_state (m st)).

Definition agree_on {B : Type} (f : State -> B) (st st' : State) : Prop := f st' = f st.

Definition table_stays_well_formed (st st' : State) : Prop :=
  well_formed (commands st) -> well_formed (commands st').

(** The two states agree on the stored commands, on the calls made to
    collaborators and on the identifiers seen. *)
Definition store_untouched (st st' : State) : Prop :=
  commands st' = commands st /\ calls st' = calls st
  /\ seen_message_ids st' = seen_message_ids st.

(** The sender [main] extracts from a line. *)
Definition sender (ircmsg : string) : string :=
  Py.strip (Py.tail (hd EmptyString (Py.split1 "!" (Py.strip_chars "nr" ircmsg)))).

(** The command name [command] reads from a message: the text between the
    leading marker and the first space. *)
Definition command_name (message : string) : string :=
  hd EmptyString (Py.split_char " " (Py.tail message)).

(** The text [main] extracts from a line that holds [PRIVMSG]; [None]
    where one of the two subscripts is out of range. *)
Definition chat_text (ircmsg : string) : option string :=
  match Py.split1 "PRIVMSG" (Py.strip_chars "nr" ircmsg) !! 1%nat with
  | None => None
  | Some tail =>
      match Py.split1 ":" tail !! 1%nat with
      | None => None
      | Some text => Some (Py.strip text)
      end
  end.

(** A line of chat that is no command: it holds [PRIVMSG], and its text
    starts with a character other than the marker. *)
Definition plain_chat (ircmsg : string) : Prop :=
  Py.find "PRIVMSG" (Py.strip_chars "nr" ircmsg) <> -1
  /\ exists c rest, chat_text ircmsg = Some (String c rest) /\ c <> "!"%char.

(** The text of the line holds one of [GREETINGS]. *)
Definition greets (ircmsg : string) : bool :=
  match chat_text ircmsg with
  | Some message => existsb (fun word => Py.contains word (Py.lower message)) GREETINGS
  | None => false
  end.

(** Every line sent to the chat since [st] satisfies [P]. *)
Definition sent_only (P : string -> Prop) (st st' : State) : Prop :=
  exists lines, ircserver st' = ircserver st ++ lines /\ Forall P lines.

Definition is_privmsg (line : string) : Prop := Py.startswith "PRIVMSG " line = true.

(** The line [sendmsg] writes for a message. *)
Definition chat_line (env : Env) (msg : string) : string :=
  "PRIVMSG " +:+ CHANNEL env +:+ " :" +:+ msg +:+ crlf.

(** What the process receives: a request on the webhook, or a buffer
    from the chat. *)
Inductive input : Type :=
| posted (req : Request)
| said (ircmsg : string).

(** The state after one input, and after several in turn. An exception
    leaves the state it was raised in; one raised by the read loop ends
    the process, so that nothing is received after it. *)
Definition after (env : Env) (st : State) (i : input) : State :=
  match i with
  | posted req => final_state (do_POST env req st)
  | said ircmsg => final_state (main_loop env ircmsg st)
  end.

Definition after_all (env : Env) (inputs : list input) (st : State) : State :=
  fold_left (after env) inputs st.

(** Every sender seen in [st] is seen in [st']. *)
Definition still_seen (st st' : State) : Prop := seen_users st ⊆ seen_users st'.

(** What a webhook request may do to the state: record one identifier and
    write to the chat, nothing else. *)
Definition webhook_footprint (st st' : State) : Prop :=
  commands st' = commands st
  /\ cooldown_handlers st' = cooldown_handlers st
  /\ seen_users st' = seen_users st
  /\ calls st' = calls st
  /\ reads st' = reads st
  /\ (seen_message_ids st' = seen_message_ids st
      \/ exists message_id, seen_message_ids st' = seen_message_ids st ++ [message_id]).

(** Lower-case hexadecimal digits only. *)
Fixpoint is_lower_hex (s : string) : bool :=
  match s with
  | EmptyString => true
  | String c s' => Py.mem_ascii c "0123456789abcdef" && is_lower_hex s'
  end.

(** The text of an identifier, for the values on which [py_str] is
    [str]: a string, and an integer of at most 4300 digits, beyond which
    [str] raises [ValueError]. *)
Definition id_text (v : Json.value) : option string :=
  match v with
  | Json.Str s => Some s
  | Json.Int n => if Z.abs n <? 10 ^ 4300 then Some (Py.str_of_Z n) else None
  | _ => None
  end.

(** The identifier [get_user_id] reads from one user. *)
Definition user_id_of (user : Json.value) : option string :=
  match user with
  | Json.Obj members =>
      match Json.dict_get "_id" members with
      | Some v => id_text v
      | None => None
      end
  | _ => None
  end.

(** The identifier [nuke_eventsubs] reads from one subscription. *)
Definition subscription_id_of (sub : Json.value) : option string :=
  match sub with
  | Json.Obj members =>
      match Json.dict_get "id" members with
      | Some v => id_text v
      | None => None
      end
  | _ => None
  end.

(** An entry on which [i['id']] raises: an object without that key, or
    a value that is no object. *)
Definition lacks_id (sub : Json.value) : Prop :=
  match sub with
  | Json.Obj members => Json.dict_get "id" members = None
  | _ => True
  end.

(** The characters that end or alter a field of a query. *)
Definition reserved : string :=
  "#?&=+%" +:+ String "009" (String "010" (String "013" EmptyString)).

(** A text without any of them. *)
Fixpoint plain (s : string) : bool :=
  match s with
  | EmptyString => true
  | String c r => negb (Py.mem_ascii c reserved) && plain r
  end.

(** The page every [GET] is answered with in the end. *)
Definition success_page (path : string) : list get_op :=
  map reply _set_response ++ [reply (wfile_write ("GET request for " +:+ path))].

(** The target the authorization service redirects to. *)
Definition callback (code state : string) : string :=
  "/?code=" +:+ code +:+ "&state=" +:+ state.

(** ** Further concrete material *)

(** A channel whose cooldown is not written as a number. *)
Definition channel_30s : Env :=
  {| SECRET := "s3cret"; MODS := "kjlander"; COOLDOWN := "30s";
     CHANNEL_NAME := "kjlander"; clock := fun n => Z.of_nat n |}.




(** A user as the API lists them. *)
Definition user (id : string) : Json.value :=
  Json.Obj [("_id", Json.Str id); ("name", Json.Str "kjlander")].

(** Subscriptions as the API lists them, and the rest of a listing that
    goes on with an entry that is no object. *)
Definition listed : list Json.value :=
  [Json.Obj [("id", Json.Str "s-1")]; Json.Obj [("id", Json.Int 2)]].

Definition unlisted : list Json.value :=
  [Json.Null; Json.Obj [("id", Json.Str "s-4")]].

(** * Properties *)

(** ** Tactics and general lemmas *)

(** Unfold the monadic operations in the goal. *)
Ltac run :=
  unfold item, first_char, sendmsg, do_call, subscript, str_encode, py_int,
    gets, modify, raise, mbind, M_bind, mret, M_ret;
  cbv beta iota.

Lemma append_cons (x : ascii) (a b : string) : String x a +:+ b = String x (a +:+ b).
Proof. reflexivity. Qed.

Lemma append_assoc (a b c : string) : (a +:+ b) +:+ c = a +:+ (b +:+ c).
Proof.
  induction a as [|x a IH]; [reflexivity|].
  rewrite !append_cons. f_equal. exact IH.
Qed.

Lemma append_empty_r (a : string) : a +:+ EmptyString = a.
Proof.
  induction a as [|x a IH]; [reflexivity|].
  rewrite append_cons. f_equal. exact IH.
Qed.

(** [s.split(sep, 1)] always has a first element. *)
Lemma split1_head sep s : exists w ws, Py.split1 sep s = w :: ws.
Proof.
  induction s as [|c s IH]; cbn.
  - destruct (Py.startswith sep EmptyString); eauto.
  - destruct (Py.startswith sep (String c s)); eauto.
    destruct IH as (w & ws & ->). destruct ws; eauto.
Qed.

(** ** Signature verification *)

Lemma one_byte_changed_neq pre s s' post :
  one_byte_changed s s' -> pre +:+ s +:+ post <> pre +:+ s' +:+ post.
Proof.
  intros (p & c & c' & q & Hc & -> & ->) E.
  apply String.app_inj in E.
  rewrite !append_assoc in E. apply String.app_inj in E.
  rewrite !append_cons in E. congruence.
Qed.

(** Changing one byte of the identifier, the timestamp or the body changes
    the message that is authenticated. *)
Lemma tampered_neq es_id ts body es_id' ts' body' :
  tampered es_id ts body es_id' ts' body' ->
  es_id +:+ ts +:+ body <> es_id' +:+ ts' +:+ body'.
Proof.
  intros [(H & -> & ->)|[(-> & H & ->)|(-> & -> & H)]].
  - apply (one_byte_changed_neq EmptyString _ _ (ts +:+ body) H).
  - apply (one_byte_changed_neq es_id _ _ body H).
  - intros E. apply (one_byte_changed_neq (es_id +:+ ts) _ _ EmptyString H).
    rewrite !append_assoc, !append_empty_r. exact E.
Qed.

Lemma be_bytes_range n x : Forall is_byte (Hashlib.be_bytes n x).
Proof.
  induction n as [|n IH]; cbn [Hashlib.be_bytes]; constructor; [|exact IH].
  unfold is_byte. apply Z.mod_pos_bound. lia.
Qed.

Lemma sha256_range m : Forall is_byte (Hashlib.sha256 m).
Proof.
  unfold Hashlib.sha256.
  generalize (fold_left Hashlib.compress
    (Hashlib.blocks (Datatypes.length (Hashlib.words_of (Hashlib.pad m)) / 16)
       (Hashlib.words_of (Hashlib.pad m))) Hashlib.H0).
  intros h. induction h as [|w h IH]; cbn [flat_map]; [constructor|].
  apply Forall_app. split; [apply be_bytes_range|exact IH].
Qed.

Lemma hmac_range key m : Forall is_byte (Hashlib.hmac_sha256 key m).
Proof. apply sha256_range. Qed.

Lemma hexdigit_inj d d' :
  0 <= d < 16 -> 0 <= d' < 16 -> Hashlib.hexdigit d = Hashlib.hexdigit d' -> d = d'.
Proof.
  intros Hd Hd' E. apply (f_equal N_of_ascii) in E. unfold Hashlib.hexdigit in E.
  rewrite !N_ascii_embedding in E by (destruct (d <? 10), (d' <? 10); lia).
  apply (f_equal Z.of_N) in E.
  destruct (Z.ltb_spec d 10), (Z.ltb_spec d' 10); lia.
Qed.

(** Distinct digests have distinct hexadecimal forms. *)
Lemma hex_inj l l' :
  Forall is_byte l -> Forall is_byte l' -> Hashlib.hex l = Hashlib.hex l' -> l = l'.
Proof.
  intros Hl. revert l'. induction Hl as [|b l Hb Hl IH]; intros l' Hl' E.
  - destruct l'; [reflexivity|discriminate].
  - destruct Hl' as [|b' l' Hb' Hl']; [discriminate|].
    cbn [Hashlib.hex] in E. injection E as E1 E2 E3.
    unfold is_byte in *.
    assert (R : forall x, 0 <= x < 256 -> 0 <= x / 16 < 16 /\ 0 <= x mod 16 < 16).
    { intros x Hx. split; [|apply Z.mod_pos_bound; lia].
      split; [apply Z.div_pos; lia|apply Z.div_lt_upper_bound; lia]. }
    apply hexdigit_inj in E1; [|apply R; assumption..].
    apply hexdigit_inj in E2; [|apply R; assumption..].
    f_equal; [|apply IH; assumption].
    rewrite (Z.div_mod b 16), (Z.div_mod b' 16) by lia. congruence.
Qed.

(** The derived constants begin and end as published. *)
Example sha256_constants :
  hd 0 Hashlib.K = 0x428a2f98 /\ List.last Hashlib.K 0 = 0xc67178f2
  /\ hd 0 Hashlib.H0 = 0x6a09e667 /\ List.last Hashlib.H0 0 = 0x5be0cd19.
Proof. vm_compute. repeat split. Qed.

(** The implementation agrees with the published test vectors: SHA-256 of
    [abc] (FIPS 180-4) and HMAC-SHA256 test case 2 of RFC 4231. *)
Example sha256_abc :
  Hashlib.hex (Hashlib.sha256 (Hashlib.bytes_of "abc"))
  = "ba7816bf8f01cfea414140de5dae2223b00361a396177a9cb410ff61f20015ad".
Proof. vm_compute. reflexivity. Qed.

Example hmac_sha256_rfc4231_2 :
  Hashlib.hex (Hashlib.hmac_sha256 (Hashlib.bytes_of "Jefe")
                 (Hashlib.bytes_of "what do ya want for nothing?"))
  = "5bdcc146bf60754e6a042426089575c75a003f089d2739839dec58b964ec3843".
Proof. vm_compute. reflexivity. Qed.

(** [verify_signature] accepts exactly the signatures that, once the
    prefix [sha256=] is removed, are the sender's signature. *)
Lemma verify_signature_true secret es_id ts body sig :
  verify_signature secret es_id ts body sig = true <->
  Py.removeprefix "sha256=" sig = sign secret es_id ts body.
Proof.
  unfold verify_signature, sign. rewrite String.eqb_eq. split; congruence.
Qed.

(** X25. What the check guarantees against tampering: a signature made
    for one message is accepted for a message that differs from it in one
    byte of identifier, timestamp or body exactly when the two messages
    collide under HMAC-SHA256 with that key; the comparison of the
    hexadecimal digests loses nothing. *)
Theorem verify_signature_tampered secret es_id ts body sig es_id' ts' body' :
  Py.removeprefix "sha256=" sig = sign secret es_id ts body ->
  tampered es_id ts body es_id' ts' body' ->
  verify_signature secret es_id' ts' body' sig = true <->
  collide secret (es_id +:+ ts +:+ body) (es_id' +:+ ts' +:+ body').
Proof.
  intros Hsig Ht. rewrite verify_signature_true, Hsig. unfold sign, collide. split.
  - intros E. apply hex_inj in E; [|apply hmac_range..].
    split; [apply tampered_neq, Ht|exact E].
  - intros [_ E]. rewrite E. reflexivity.
Qed.

Lemma verify_signature_tampered_witness :
  Py.removeprefix "sha256=" ada_signature = sign "s3cret" "m2" timestamp ada
  /\ tampered "m2" timestamp ada "m2" timestamp (json_text "{'event': {'user_name': 'Eda'}}")
  /\ (verify_signature "s3cret" "m2" timestamp
        (json_text "{'event': {'user_name': 'Eda'}}") ada_signature = true
      <-> collide "s3cret" ("m2" +:+ timestamp +:+ ada)
            ("m2" +:+ timestamp +:+ json_text "{'event': {'user_name': 'Eda'}}")).
Proof.
  assert (H1 : Py.removeprefix "sha256=" ada_signature = sign "s3cret" "m2" timestamp ada)
    by (vm_compute; reflexivity).
  assert (H2 : tampered "m2" timestamp ada "m2" timestamp
                 (json_text "{'event': {'user_name': 'Eda'}}")).
  { right. right. split; [reflexivity|]. split; [reflexivity|].
    exists (json_text "{'event': {'user_name': '"), "A"%char, "E"%char,
           (json_text "da'}}").
    split; [discriminate|]. split; reflexivity. }
  split; [exact H1|]. split; [exact H2|].
  exact (verify_signature_tampered "s3cret" "m2" timestamp ada ada_signature
           "m2" timestamp (json_text "{'event': {'user_name': 'Eda'}}") H1 H2).
Defined.

(** On a concrete message, every part of which is altered in turn. *)
Example verify_signature_follow :
  verify_signature "s3cret" "m2" timestamp ada ada_signature = true
  /\ verify_signature "s3cret" "m3" timestamp ada ada_signature = false
  /\ verify_signature "s3cret" "m2" "2021-11-16T10:11:13Z" ada ada_signature = false
  /\ verify_signature "s3cret" "m2" timestamp (json_text "{'event': {'user_name': 'Eda'}}")
       ada_signature = false.
Proof. vm_compute. repeat split. Qed.

(** ** The webhook handler *)

Create HintDb chat.

Lemma same_but_chat_refl st : same_but_chat st st.
Proof. repeat split. Qed.

Lemma same_but_chat_trans st1 st2 st3 :
  same_but_chat st1 st2 -> same_but_chat st2 st3 -> same_but_chat st1 st3.
Proof. unfold same_but_chat. intuition congruence. Qed.

Lemma chat_only_ret {A : Type} (a : A) : chat_only (mret a).
Proof. intros st. apply same_but_chat_refl. Qed.

Lemma chat_only_raise {A : Type} (e : exn) : chat_only (@raise A e).
Proof. intros st. apply same_but_chat_refl. Qed.

Lemma chat_only_bind {A B : Type} (m : M A) (f : A -> M B) :
  chat_only m -> (forall a, chat_only (f a)) -> chat_only (m ≫= f).
Proof.
  intros Hm Hf st. specialize (Hm st). unfold mbind, M_bind.
  destruct (m st) as [a st'|e st']; cbn [final_state] in *; [|exact Hm].
  eapply same_but_chat_trans; [exact Hm|apply Hf].
Qed.

Lemma chat_only_sendmsg env msg : chat_only (sendmsg env msg).
Proof. intros st. repeat split. Qed.

Lemma chat_only_subscript v k : chat_only (subscript v k).
Proof.
  unfold subscript.
  destruct v as [|b|n|m e|l|s|items|members]; try apply chat_only_raise.
  destruct (Json.dict_get k members); [apply chat_only_ret|apply chat_only_raise].
Qed.

Lemma chat_only_str_encode v : chat_only (str_encode v).
Proof. destruct v; first [apply chat_only_ret|apply chat_only_raise]. Qed.

Lemma chat_only_py_int v : chat_only (py_int v).
Proof.
  destruct v as [|b|n|m e|l|s|items|members]; cbn [py_int];
    try first [apply chat_only_ret|apply chat_only_raise].
  - destruct (if 0 <=? e then _ else _); [apply chat_only_ret|apply chat_only_raise].
  - destruct (String.eqb l "nan"); apply chat_only_raise.
  - destruct (Py.int_of_str s); [apply chat_only_ret|apply chat_only_raise].
Qed.

Lemma chat_only_int_of_quotient n d : chat_only (int_of_quotient n d).
Proof.
  unfold int_of_quotient.
  destruct (Float.trunc_quotient n d); [apply chat_only_ret|apply chat_only_raise].
Qed.

#[local] Hint Resolve chat_only_ret chat_only_raise chat_only_sendmsg
  chat_only_subscript chat_only_str_encode chat_only_py_int
  chat_only_int_of_quotient : chat.

(** Walk through a computation built from the operations above. *)
Ltac chat :=
  repeat first
    [ apply chat_only_bind; [|intros ?]
    | match goal with |- chat_only (if ?b then _ else _) => destruct b end
    | solve [auto with chat] ].

Lemma chat_only_notification env req payload : chat_only (notification env req payload).
Proof. unfold notification. chat. Qed.

(** Handling a verified request records its identifier and otherwise
    touches the chat socket only, whether it returns or raises. *)
Lemma verified_frame env req post_data message_id st :
  same_but_chat (set_seen_message_ids (fun l => l ++ [message_id]) st)
                (final_state (verified env req post_data message_id st)).
Proof.
  unfold verified. unfold mbind at 1. unfold M_bind at 1. unfold modify. cbv beta iota.
  generalize (set_seen_message_ids (fun l => l ++ [message_id]) st).
  match goal with
  | |- forall s, same_but_chat s (final_state (?m s)) => change (chat_only m)
  end.
  apply chat_only_bind.
  { destruct (Json.loads post_data); auto with chat. }
  intros payload. pose proof (chat_only_notification env req payload). chat.
Qed.


(** The three ways through [do_POST] once the body is read. *)
Lemma do_POST_foreign env req st body :
  post_data req = inr body ->
  truthy (header req "Twitch-Eventsub-Message-Id") = false ->
  do_POST env req st
  = Returned (_set_response ++ [wfile_write ("POST request for " +:+ path req)]) st.
Proof. intros Hb H. unfold do_POST, handle_post. rewrite Hb, H. reflexivity. Qed.

Lemma do_POST_seen env req st body message_id :
  post_data req = inr body ->
  header req "Twitch-Eventsub-Message-Id" = Some message_id ->
  message_id <> EmptyString ->
  message_id ∈ seen_message_ids st ->
  do_POST env req st = Returned _set_response st.
Proof.
  intros Hb Hid Hne Hin. unfold do_POST, handle_post. rewrite Hb, Hid.
  destruct message_id as [|c r]; [contradiction|]. cbn [truthy default]. run.
  rewrite bool_decide_eq_true_2 by exact Hin. reflexivity.
Qed.

Lemma do_POST_fresh env req st body message_id :
  post_data req = inr body ->
  header req "Twitch-Eventsub-Message-Id" = Some message_id ->
  message_id <> EmptyString ->
  message_id ∉ seen_message_ids st ->
  do_POST env req st =
    match header req "Twitch-Eventsub-Message-Timestamp",
          header req "Twitch-Eventsub-Message-Signature" with
    | Some ts, Some sig =>
        if verify_signature (SECRET env) message_id ts body sig
        then verified env req body message_id st
        else Returned [send_response 403; end_headers] st
    | _, _ => Raised AttributeError st
    end.
Proof.
  intros Hb Hid Hne Hin. unfold do_POST, handle_post. rewrite Hb, Hid.
  destruct message_id as [|c r]; [contradiction|]. cbn [truthy default]. run.
  rewrite bool_decide_eq_false_2 by exact Hin.
  unfold call_verify_signature. run.
  destruct (header req "Twitch-Eventsub-Message-Timestamp") as [ts|]; [|reflexivity].
  destruct (header req "Twitch-Eventsub-Message-Signature") as [sig|]; [|reflexivity].
  destruct (verify_signature _ _ _ _ _); reflexivity.
Qed.




(** C7 fails on the code. [do_POST] has no exception handler. The first
    request is correctly signed and its body is not JSON: its identifier
    is recorded, then [json.loads] raises, and no response is written. The
    second has an identifier and no timestamp: the signature check raises.
    The third has no header at all: [int(None)] raises. In each case a
    response with status 200 is due, and the handler is left by an
    exception instead. *)
Theorem malformed_post_raises :
  post_data broken_notification = inr "{"
  /\ verify_signature (SECRET channel) "m1" timestamp "{"
       "sha256=8540d32cce1ea895a94bf6d1c04765595c6a6301b6682305200c1bb0071b7107" = true
  /\ Json.loads "{" = None
  /\ do_POST channel broken_notification (initial [])
     = Raised JSONDecodeError (seen_only ["m1"])
  /\ header undated_notification "Twitch-Eventsub-Message-Timestamp" = None
  /\ do_POST channel undated_notification (initial [])
     = Raised AttributeError (initial [])
  /\ headers bare_post = []
  /\ do_POST channel bare_post (initial []) = Raised TypeError (initial []).
Proof. vm_compute. repeat split. Qed.

(** The scenarios of the design document: a cheer, a subscription and the
    verification challenge. *)
Example cheer_scenario :
  do_POST channel cheer_notification (initial [])
  = Returned _set_response
      (set_ircserver
         (fun _ => ["PRIVMSG #kjlander :Ada cheered 100 bits! Thank you for the support!"
                    +:+ crlf])
         (seen_only ["m3"])).
Proof. vm_compute. reflexivity. Qed.

Example subscribe_scenario :
  do_POST channel subscribe_notification (initial [])
  = Returned _set_response
      (set_ircserver
         (fun _ => ["PRIVMSG #kjlander :Ada subscribed at tier 2! Thank you for the support!"
                    +:+ crlf])
         (seen_only ["m5"])).
Proof. vm_compute. reflexivity. Qed.

Example challenge_scenario :
  do_POST channel challenge_request (initial [])
  = Returned [send_response 200; send_header "Content-Length" "6"; end_headers;
              wfile_write "abc123"]
      (seen_only ["m4"]).
Proof. vm_compute. reflexivity. Qed.

(** A verified notification of a subscription type other than the three
    that are handled is never answered: whatever its body, the handler
    either raises or returns having written nothing, and no line goes to
    the chat. *)
Lemma unrecognised_type_is_not_answered env req st body message_id ts sig :
  post_data req = inr body ->
  header req "Twitch-Eventsub-Message-Id" = Some message_id ->
  message_id <> EmptyString ->
  message_id ∉ seen_message_ids st ->
  header req "Twitch-Eventsub-Message-Timestamp" = Some ts ->
  header req "Twitch-Eventsub-Message-Signature" = Some sig ->
  verify_signature (SECRET env) message_id ts body sig = true ->
  header req "Twitch-Eventsub-Message-Type" = Some "notification" ->
  is_str (header req "Twitch-Eventsub-Subscription-Type") "channel.follow" = false ->
  is_str (header req "Twitch-Eventsub-Subscription-Type") "channel.subscribe" = false ->
  is_str (header req "Twitch-Eventsub-Subscription-Type") "channel.cheer" = false ->
  let st' := set_seen_message_ids (fun l => l ++ [message_id]) st in
  do_POST env req st = Returned [] st'
  \/ exists e, do_POST env req st = Raised e st'.
Proof.
  intros Hb Hid Hne Hfresh Hts Hsig Hv Hty Hf Hs Hc st'. subst st'.
  rewrite (do_POST_fresh env req st body message_id Hb Hid Hne Hfresh), Hts, Hsig, Hv.
  unfold verified. run.
  destruct (Json.loads body) as [payload|]; [|right; eauto].
  rewrite Hty. cbn [is_str String.eqb Ascii.eqb Bool.eqb].
  unfold notification. run. rewrite Hf, Hs, Hc.
  destruct payload as [|b|n|m e|l|s|items|members]; try (right; eauto; fail).
  destruct (Json.dict_get "event" members) as [event|]; [|right; eauto].
  destruct event as [|b|n|m e|l|s|items|fields]; try (right; eauto; fail).
  destruct (Json.dict_get "user_name" fields) as [user_name|]; [|right; eauto].
  left. reflexivity.
Qed.

(** C8 fails on the code. This notification is correctly signed and of a
    subscription type other than follow, subscribe and cheer: the handler
    records its identifier, sends nothing to the chat, and returns without
    writing any response, where a response with status 200 is due; the
    same body announced as a follow is answered. *)
Theorem unrecognised_type_gets_no_response :
  post_data gift_notification = inr ada
  /\ verify_signature (SECRET channel) "m2" timestamp ada ada_signature = true
  /\ header gift_notification "Twitch-Eventsub-Subscription-Type"
     = Some "channel.subscription.gift"
  /\ do_POST channel gift_notification (initial [])
     = Returned [] (seen_only ["m2"])
  /\ do_POST channel follow_notification (initial [])
     = Returned _set_response
         (set_ircserver
            (fun _ => ["PRIVMSG #kjlander :Thank you for following Ada!" +:+ crlf])
            (seen_only ["m2"])).
Proof. vm_compute. repeat split. Qed.

(** ** Cooldowns *)

(** A non-moderator's use of a stored command open to everyone, when the
    command has no handler yet. *)
Lemma command_handler_first env st command user name content N :
  select command (commands st) = Some (name, content, 0) ->
  in_MODS env user = false ->
  Py.int_of_str (COOLDOWN env) = Some N ->
  cooldown_handlers st !! command = None ->
  command_handler env command user st =
    Returned (Some content)
      (stamp command (CooldownHandler.mk command N (clock env (reads st)))
             (S (reads st)) st).
Proof.
  intros Hrow Hmod Hint Hnone. unfold command_handler. run.
  rewrite Hrow, Hmod. cbn [Z.eqb].
  rewrite Hnone. unfold CooldownHandler.__init__. rewrite Hint. reflexivity.
Qed.

Lemma round53_exact x : exact x -> Float.round53 x = x.
Proof.
  unfold exact, Float.round53. intros H.
  destruct (Z.ltb_spec (Z.abs x) (2 ^ 53)); [reflexivity|lia].
Qed.

Lemma of_int_exact x : exact x -> Float.of_int x = Some x.
Proof.
  intros H. unfold Float.of_int. rewrite (round53_exact x H).
  unfold exact in H.
  assert (L : 2 ^ 53 < 2 ^ 1024) by (apply Z.pow_lt_mono_r; lia).
  destruct (Z.ltb_spec (Z.abs x) (2 ^ 1024)); [reflexivity|lia].
Qed.

Lemma add_exact x y : exact (x + y) -> Float.add x y = x + y.
Proof. apply round53_exact. Qed.

Lemma exact_fits x : exact x -> fits_double x.
Proof. intros H. unfold fits_double. rewrite (of_int_exact x H). eauto. Qed.

(** The same use when the command has a handler, interval and sum being
    held exactly. *)
Lemma command_handler_next env st command user name content h :
  select command (commands st) = Some (name, content, 0) ->
  in_MODS env user = false ->
  cooldown_handlers st !! command = Some h ->
  exact (CooldownHandler.cooldown h) ->
  exact (CooldownHandler.cooldown h + CooldownHandler.last_used h) ->
  command_handler env command user st =
    if clock env (reads st) >? CooldownHandler.last_used h + CooldownHandler.cooldown h
    then Returned (Some content)
           (stamp command
              (CooldownHandler.mk (CooldownHandler.command h) (CooldownHandler.cooldown h)
                                  (clock env (S (reads st))))
              (S (S (reads st))) st)
    else Returned None (set_reads (S (reads st)) st).
Proof.
  intros Hrow Hmod Hsome Hc Hsum. unfold command_handler. run.
  rewrite Hrow, Hmod. cbn [Z.eqb].
  rewrite Hsome. unfold CooldownHandler.is_useable, CooldownHandler.time.
  rewrite (of_int_exact _ Hc), (add_exact _ _ Hsum).
  rewrite (Z.add_comm (CooldownHandler.cooldown h)).
  destruct (clock env (reads st) >? _); reflexivity.
Qed.

(** When the interval is beyond the range of doubles, the check of a
    handler raises once the clock is read. *)
Lemma command_handler_overflow env st command user name content h :
  select command (commands st) = Some (name, content, 0) ->
  in_MODS env user = false ->
  cooldown_handlers st !! command = Some h ->
  Float.of_int (CooldownHandler.cooldown h) = None ->
  command_handler env command user st = Raised OverflowError (set_reads (S (reads st)) st).
Proof.
  intros Hrow Hmod Hsome Hc. unfold command_handler. run.
  rewrite Hrow, Hmod. cbn [Z.eqb].
  rewrite Hsome. unfold CooldownHandler.is_useable, CooldownHandler.time.
  rewrite Hc. reflexivity.
Qed.




(** The scenario of the design document: a moderator stores [greet], a
    viewer is answered once and denied while the cooldown lasts; and of two
    greetings of one viewer only the first is returned. *)
Example greet_scenario :
  main_loops channel
    [privmsg "kjlander" "!addcom greet Hello there!";
     privmsg "bob" "!greet"; privmsg "bob" "!greet";
     privmsg "bob" "hello everyone"; privmsg "bob" "hi again"]
    (initial [])
  = Returned tt
      {| seen_users := ["bob"];
         cooldown_handlers := {["greet" := CooldownHandler.mk "greet" 30 0]};
         seen_message_ids := [];
         commands := greet_table;
         ircserver := ["PRIVMSG #kjlander :Hello there!" +:+ crlf;
                       "PRIVMSG #kjlander :Hi bob :)" +:+ crlf];
         calls := [Commit];
         reads := 2 |}.
Proof. vm_compute. reflexivity. Qed.

(** ** The stored commands *)

(** [add_command] in terms of the fields of its message. *)
Lemma add_command_fields message st :
  add_command message st =
    match addcom_fields message with
    | None => Raised IndexError st
    | Some (mod_, command, content) =>
        match select command (commands st) with
        | None => Returned true (set_commands (fun t => t ++ [(command, content, mod_)]) st)
        | Some _ => Returned false st
        end
    end.
Proof.
  unfold add_command, addcom_fields. run.
  destruct (Py.split_char " " message !! 1%nat) as [flag|]; [|reflexivity].
  destruct (String.eqb (Py.lower flag) "mod").
  - destruct (Py.split_char " " message !! 2%nat) as [name|]; [|reflexivity].
    cbv beta iota. destruct (select _ _); reflexivity.
  - cbv beta iota. destruct (select _ _); reflexivity.
Qed.




(** ** The dispatcher *)

(** Looking up a stored command whose template is empty yields a value
    that is false in a test, and touches nothing but the cooldowns. *)
Lemma command_handler_empty env st cmd name c mod_ N :
  select cmd (commands st) = Some (c, EmptyString, mod_) ->
  Py.int_of_str (COOLDOWN env) = Some N ->
  (forall h, cooldown_handlers st !! cmd = Some h ->
     fits_double (CooldownHandler.cooldown h)) ->
  exists r st',
    command_handler env cmd name st = Returned r st'
    /\ (r = None \/ r = Some EmptyString)
    /\ same_but_cooldown st st'
    /\ (in_MODS env name = true \/ mod_ <> 0 -> st' = st)
    /\ (in_MODS env name = false -> mod_ = 0 ->
        is_Some (cooldown_handlers st' !! cmd) /\ (reads st < reads st')%nat).
Proof.
  intros Hrow Hint Hfits. unfold command_handler. run. rewrite Hrow.
  destruct (in_MODS env name) eqn:Hmod.
  { eexists _, st. repeat split; auto; discriminate. }
  destruct (Z.eqb_spec mod_ 0) as [->|Hne].
  2:{ eexists _, st. repeat split; auto; contradiction. }
  destruct (cooldown_handlers st !! cmd) as [h|] eqn:Hh.
  - unfold CooldownHandler.is_useable, CooldownHandler.time.
    destruct (Hfits h eq_refl) as [x Hx]. rewrite Hx.
    destruct (_ >? _); eexists _, _; (split; [reflexivity|]);
      (split; [auto|]); (split; [repeat split|]);
      (split; [intros [?|?]; congruence|]); intros _ _; cbn.
    + split; [rewrite lookup_insert_eq; eauto|lia].
    + split; [rewrite Hh; eauto|lia].
  - unfold CooldownHandler.__init__, CooldownHandler.time. rewrite Hint.
    eexists _, _; (split; [reflexivity|]);
      (split; [auto|]); (split; [repeat split|]);
      (split; [intros [?|?]; congruence|]); intros _ _; cbn.
    split; [rewrite lookup_insert_eq; eauto|lia].
Qed.

(** A moderator's [addcom] with a name and nothing after it stores a
    command whose template is empty. *)
Example addcom_without_content :
  main_loop channel (privmsg "kjlander" "!addcom foo") (initial [])
  = Returned tt (set_calls (fun _ => [Commit]) (initial empty_foo)).
Proof. vm_compute. reflexivity. Qed.

(** C9, as the code has it. A stored command with an empty template sends
    nothing of its own and hands the message to the hard-coded chain, as a
    command that is not stored does. The chain runs on the state the
    look-up left: that state is the one before when the sender is a
    moderator or the command is for moderators only; otherwise the look-up
    has consulted the cooldown of the command, so the command has a handler
    and the clock was read, and nothing else differs. [COOLDOWN] is the
    text of an integer, and the interval of a handler the command has
    already is within the range of doubles. *)
Theorem empty_template_falls_through env message name cmd N :
  Py.split_char " " (Py.tail message) !! 0%nat = Some cmd ->
  Py.int_of_str (COOLDOWN env) = Some N ->
  (forall st, select cmd (commands st) = None ->
     command env message name st = builtin env (Py.tail message) cmd name st)
  /\ (forall st c mod_, select cmd (commands st) = Some (c, EmptyString, mod_) ->
      (forall h, cooldown_handlers st !! cmd = Some h ->
         fits_double (CooldownHandler.cooldown h)) ->
      let st' := final_state (command_handler env cmd name st) in
      command env message name st = builtin env (Py.tail message) cmd name st'
      /\ same_but_cooldown st st'
      /\ (in_MODS env name = true \/ mod_ <> 0 -> st' = st)
      /\ (in_MODS env name = false -> mod_ = 0 ->
          is_Some (cooldown_handlers st' !! cmd) /\ (reads st < reads st')%nat)).
Proof.
  intros Hcmd Hint. split.
  - intros st Hnone. unfold command. run. rewrite Hcmd.
    unfold command_handler. run. rewrite Hnone. reflexivity.
  - intros st c mod_ Hrow Hfits st'.
    destruct (command_handler_empty env st cmd name c mod_ N Hrow Hint Hfits)
      as (r & st1 & Hrun & Hr & Hsame & Hid & Hcool).
    subst st'. rewrite Hrun. cbn [final_state].
    split; [|split; [exact Hsame|split; [exact Hid|exact Hcool]]].
    unfold command. run. rewrite Hcmd, Hrun.
    destruct Hr as [-> | ->]; reflexivity.
Qed.

Lemma empty_template_falls_through_witness :
  Py.split_char " " (Py.tail "!foo") !! 0%nat = Some "foo"
  /\ Py.int_of_str (COOLDOWN channel) = Some 30
  /\ select "foo" (commands (initial empty_foo)) = Some ("foo", EmptyString, 0)
  /\ cooldown_handlers (initial empty_foo) !! "foo" = None
  /\ command channel "!foo" "kjlander" (initial empty_foo)
     = builtin channel "foo" "foo" "kjlander" (initial empty_foo)
  /\ command channel "!foo" "kjlander" (initial [])
     = builtin channel "foo" "foo" "kjlander" (initial []).
Proof.
  assert (H1 : Py.split_char " " (Py.tail "!foo") !! 0%nat = Some "foo") by reflexivity.
  assert (H2 : Py.int_of_str (COOLDOWN channel) = Some 30) by reflexivity.
  assert (H3 : select "foo" (commands (initial empty_foo)) = Some ("foo", EmptyString, 0))
    by reflexivity.
  assert (H4 : cooldown_handlers (initial empty_foo) !! "foo" = None) by reflexivity.
  destruct (empty_template_falls_through channel "!foo" "kjlander" "foo" 30 H1 H2)
    as [A B].
  assert (F : forall h, cooldown_handlers (initial empty_foo) !! "foo" = Some h ->
                        fits_double (CooldownHandler.cooldown h)).
  { intros h Hh. rewrite H4 in Hh. discriminate Hh. }
  destruct (B (initial empty_foo) "foo" 0 H3 F) as (B1 & _ & B2 & _).
  cbv zeta in B1, B2.
  rewrite (B2 (or_introl eq_refl)) in B1.
  split; [exact H1|]. split; [exact H2|]. split; [exact H3|]. split; [exact H4|].
  split; [exact B1|]. apply A. reflexivity.
Defined.

(** C9, as the claim has it, fails. When a sender who is not a moderator
    invokes the stored command [foo] of empty template, the command gets a
    cooldown handler, which it would not have got were it not stored; and
    the difference shows: once the command is deleted and stored again with
    a template, a use within the interval is denied in the first case and
    answered in the second. *)
Lemma empty_template_starts_cooldown :
  is_Some (cooldown_handlers (final_state (command channel "!foo" "bob" (initial empty_foo)))
             !! "foo")
  /\ cooldown_handlers (final_state (command channel "!foo" "bob" (initial []))) !! "foo"
     = None
  /\ ircserver (final_state (main_loops channel
       [privmsg "bob" "!foo"; privmsg "kjlander" "!delcom foo";
        privmsg "kjlander" "!addcom foo Hello"; privmsg "bob" "!foo"]
       (initial empty_foo))) = []
  /\ ircserver (final_state (main_loops channel
       [privmsg "bob" "!foo"; privmsg "kjlander" "!delcom foo";
        privmsg "kjlander" "!addcom foo Hello"; privmsg "bob" "!foo"]
       (initial []))) = ["PRIVMSG #kjlander :Hello" +:+ crlf].
Proof.
  split; [vm_compute; eauto|]. vm_compute. repeat split.
Qed.

(** ** Moderators *)

(** A sender for whom [user in MODS] holds is given the template of every
    stored command, whatever its flag, and no cooldown is read or changed. *)
Lemma moderator_gets_template env st cmd user c content mod_ :
  select cmd (commands st) = Some (c, content, mod_) ->
  in_MODS env user = true ->
  command_handler env cmd user st = Returned (Some content) st.
Proof.
  intros Hrow Hmod. unfold command_handler. run. rewrite Hrow, Hmod. reflexivity.
Qed.

(** A sender for whom [user in MODS] fails sets off none of the
    hard-coded commands. *)
Lemma builtin_needs_moderator env message cmd name st :
  in_MODS env name = false ->
  builtin env message cmd name st = Returned tt st.
Proof.
  intros Hmod. unfold builtin. rewrite Hmod, !andb_false_r. reflexivity.
Qed.

(** Every name that occurs inside the text of [MODS] passes the test. *)
Lemma startswith_append s post : Py.startswith s (s +:+ post) = true.
Proof.
  induction s as [|c s IH]; [reflexivity|].
  rewrite append_cons. cbn. destruct (ascii_dec c c); [exact IH|contradiction].
Qed.

Lemma in_MODS_part env pre user post :
  MODS env = pre +:+ user +:+ post -> in_MODS env user = true.
Proof.
  intros H. unfold in_MODS. rewrite H. clear H.
  induction pre as [|c pre IH].
  - change (EmptyString +:+ user +:+ post) with (user +:+ post).
    destruct (user +:+ post) eqn:E; cbn; rewrite <- E, startswith_append; reflexivity.
  - rewrite append_cons. cbn. rewrite IH. apply orb_true_r.
Qed.

(** C2 fails on the code. [MODS] is the text of the environment variable,
    and [user in MODS] holds for every name that occurs inside it: with
    [kjlander] as the only moderator, the sender [kjla] is none of the
    privileged users, yet passes the test, is given a command reserved to
    moderators, and cancels all subscriptions. *)
Theorem part_of_a_moderator_name_is_elevated :
  MODS channel = "kjlander"
  /\ "kjla" <> "kjlander"
  /\ in_MODS channel "kjla" = true
  /\ command_handler channel "ban" "kjla" (initial [("ban", "/ban troll", 1)])
     = Returned (Some "/ban troll") (initial [("ban", "/ban troll", 1)])
  /\ main_loop channel (privmsg "kjla" "!nukeeventsubs") (initial [])
     = Returned tt (set_calls (fun _ => [NukeEventsubs]) (initial [])).
Proof. vm_compute. repeat split. discriminate. Qed.

(** ** Letter case of command names *)

(** C5 fails on the code. [add_command] stores the name in lower case, but
    neither the dispatcher nor [delete_command] folds the case of the name
    it is given: after a moderator has stored [Greet], which is kept as
    [greet], the invocation [!Greet] finds nothing, [!delcom Greet] deletes
    nothing, and [!ADDCOM] is not taken for [addcom]; only [!greet] is
    answered. *)
Theorem command_names_are_case_sensitive :
  main_loops channel
    [privmsg "kjlander" "!addcom Greet Hello there!";
     privmsg "bob" "!Greet";
     privmsg "kjlander" "!delcom Greet";
     privmsg "kjlander" "!ADDCOM other text"]
    (initial [])
  = Returned tt (set_calls (fun _ => [Commit; Commit]) (initial greet_table))
  /\ ircserver (final_state
       (main_loop channel (privmsg "bob" "!greet") (initial greet_table)))
     = ["PRIVMSG #kjlander :Hello there!" +:+ crlf]
  /\ ircserver (final_state
       (main_loop channel (privmsg "bob" "!Greet") (initial greet_table)))
     = [].
Proof. vm_compute. repeat split. Qed.

(** ** The read loop *)

(** C10. A line that holds [PRIVMSG] and whose text, once extracted and
    stripped, is empty makes the turn of the loop raise [IndexError] at the
    test of the first character, before anything is done. *)
Theorem empty_text_raises env ircmsg st tail text :
  Py.find "PRIVMSG" (Py.strip_chars "nr" ircmsg) <> -1 ->
  Py.split1 "PRIVMSG" (Py.strip_chars "nr" ircmsg) !! 1%nat = Some tail ->
  Py.split1 ":" tail !! 1%nat = Some text ->
  Py.strip text = EmptyString ->
  first_char (Py.strip text) st = Raised IndexError st
  /\ main_loop env ircmsg st = Raised IndexError st.
Proof.
  intros Hfind Htail Htext Hempty.
  split; [rewrite Hempty; reflexivity|].
  unfold main_loop.
  destruct (Z.eqb_spec (Py.find "PRIVMSG" (Py.strip_chars "nr" ircmsg)) (-1)) as [E|_];
    [contradiction|].
  cbn [negb]. run.
  destruct (split1_head "!" (Py.strip_chars "nr" ircmsg)) as (w & ws & ->).
  rewrite Htail, Htext, Hempty. reflexivity.
Qed.

Lemma empty_text_raises_witness :
  Py.find "PRIVMSG" (Py.strip_chars "nr" (privmsg "bob" EmptyString)) <> -1
  /\ Py.split1 "PRIVMSG" (Py.strip_chars "nr" (privmsg "bob" EmptyString)) !! 1%nat
     = Some (" #kjlander :" +:+ crlf)
  /\ Py.split1 ":" (" #kjlander :" +:+ crlf) !! 1%nat = Some crlf
  /\ Py.strip crlf = EmptyString
  /\ main_loop channel (privmsg "bob" EmptyString) (initial [])
     = Raised IndexError (initial []).
Proof.
  assert (H1 : Py.find "PRIVMSG" (Py.strip_chars "nr" (privmsg "bob" EmptyString)) <> -1)
    by (vm_compute; discriminate).
  assert (H2 : Py.split1 "PRIVMSG" (Py.strip_chars "nr" (privmsg "bob" EmptyString))
               !! 1%nat = Some (" #kjlander :" +:+ crlf)) by reflexivity.
  assert (H3 : Py.split1 ":" (" #kjlander :" +:+ crlf) !! 1%nat = Some crlf)
    by reflexivity.
  assert (H4 : Py.strip crlf = EmptyString) by reflexivity.
  split; [exact H1|]. split; [exact H2|]. split; [exact H3|]. split; [exact H4|].
  apply (empty_text_raises channel (privmsg "bob" EmptyString) (initial []) _ _
           H1 H2 H3 H4).
Defined.

(** The message that is authenticated is the bare concatenation of its three
    parts, so moving a byte across the border of two parts goes unnoticed. *)
Lemma verify_signature_border secret es_id c ts body sig :
  verify_signature secret (es_id +:+ String c EmptyString) ts body sig
  = verify_signature secret es_id (String c ts) body sig.
Proof.
  unfold verify_signature. rewrite append_assoc. reflexivity.
Qed.

(** * Properties beyond the claims

    ** The stored commands *)

Lemma join_cons sep x y l : Py.join sep (x :: y :: l) = x +:+ sep +:+ Py.join sep (y :: l).
Proof. reflexivity. Qed.

Lemma split_char_head c s : exists w ws, Py.split_char c s = w :: ws.
Proof.
  induction s as [|a s IH]; cbn; [eauto|].
  destruct (ascii_dec a c); [eauto|]. destruct IH as (w & ws & ->). eauto.
Qed.

(** Splitting at a character and joining with it gives the text back. *)
Lemma join_split_char c s :
  Py.join (String c EmptyString) (Py.split_char c s) = s.
Proof.
  induction s as [|a s IH]; [reflexivity|].
  cbn [Py.split_char]. destruct (ascii_dec a c) as [->|Hne].
  - destruct (split_char_head c s) as (w & ws & E). rewrite E in *.
    rewrite join_cons, IH. reflexivity.
  - destruct (split_char_head c s) as (w & ws & E). rewrite E in *.
    destruct ws as [|w' ws].
    + cbn in *. congruence.
    + rewrite join_cons in *. rewrite append_cons, IH. reflexivity.
Qed.

Lemma split_char_token c a b :
  Py.mem_ascii c a = false ->
  Py.split_char c (a +:+ String c b) = a :: Py.split_char c b.
Proof.
  induction a as [|x a IH]; intros H.
  - change (EmptyString +:+ String c b) with (String c b). cbn [Py.split_char].
    destruct (ascii_dec c c); [reflexivity|contradiction].
  - cbn in H. destruct (ascii_dec c x) as [|Hne]; [discriminate|].
    rewrite append_cons. cbn [Py.split_char].
    destruct (ascii_dec x c); [congruence|]. rewrite IH by exact H. reflexivity.
Qed.

Lemma split_char_last c a :
  Py.mem_ascii c a = false -> Py.split_char c a = [a].
Proof.
  induction a as [|x a IH]; intros H; [reflexivity|].
  cbn in H. destruct (ascii_dec c x) as [|Hne]; [discriminate|].
  cbn [Py.split_char]. destruct (ascii_dec x c); [congruence|]. rewrite IH by exact H. reflexivity.
Qed.

(** X1. [add_command] stores the content of an [addcom] message byte for
    byte: whatever follows the name and one space, runs of spaces and
    spaces at either end included, becomes the template, under the name in
    lower case; a first word that is [mod] in any letter case sets the flag
    and is not part of the name. The name is written in ASCII, where
    [Py.lower] is [str.lower]. *)
Theorem addcom_stores_content_verbatim name flag content st :
  Py.is_ascii name = true ->
  spaceless name ->
  Py.lower name <> "mod" ->
  spaceless flag ->
  Py.lower flag = "mod" ->
  select (Py.lower name) (commands st) = None ->
  add_command ("addcom " +:+ name +:+ " " +:+ content) st
  = Returned true (set_commands (fun t => t ++ [(Py.lower name, content, 0)]) st)
  /\ add_command ("addcom " +:+ flag +:+ " " +:+ name +:+ " " +:+ content) st
     = Returned true (set_commands (fun t => t ++ [(Py.lower name, content, 1)]) st).
Proof.
  intros _ Hname Hmod Hflag Hf Hnone. split.
  - rewrite add_command_fields. unfold addcom_fields.
    change ("addcom " +:+ name +:+ " " +:+ content)
      with ("addcom" +:+ String " " (name +:+ String " " content)).
    rewrite split_char_token by reflexivity.
    rewrite split_char_token by exact Hname.
    cbn [lookup list_lookup drop].
    destruct (String.eqb_spec (Py.lower name) "mod") as [E|_]; [contradiction|].
    rewrite drop_0, join_split_char, Hnone. reflexivity.
  - rewrite add_command_fields. unfold addcom_fields.
    change ("addcom " +:+ flag +:+ " " +:+ name +:+ " " +:+ content)
      with ("addcom" +:+ String " " (flag +:+ String " " (name +:+ String " " content))).
    rewrite split_char_token by reflexivity.
    rewrite split_char_token by exact Hflag.
    rewrite split_char_token by exact Hname.
    cbn [lookup list_lookup drop]. rewrite Hf. cbn [String.eqb Ascii.eqb Bool.eqb].
    rewrite drop_0, join_split_char, Hnone. reflexivity.
Qed.

Lemma addcom_stores_content_verbatim_witness :
  Py.is_ascii "Lurk" = true
  /\ spaceless "Lurk" /\ Py.lower "Lurk" <> "mod" /\ spaceless "MOD" /\ Py.lower "MOD" = "mod"
  /\ select (Py.lower "Lurk") (commands (initial greet_table)) = None
  /\ add_command "addcom Lurk  see  you, @Bob ! " (initial greet_table)
     = Returned true
         (initial (greet_table ++ [("lurk", " see  you, @Bob ! ", 0)]))
  /\ add_command "addcom MOD Lurk  see  you, @Bob ! " (initial greet_table)
     = Returned true
         (initial (greet_table ++ [("lurk", " see  you, @Bob ! ", 1)])).
Proof.
  assert (H0 : Py.is_ascii "Lurk" = true) by reflexivity.
  assert (H1 : spaceless "Lurk") by reflexivity.
  assert (H2 : Py.lower "Lurk" <> "mod") by discriminate.
  assert (H3 : spaceless "MOD") by reflexivity.
  assert (H4 : Py.lower "MOD" = "mod") by reflexivity.
  assert (H5 : select (Py.lower "Lurk") (commands (initial greet_table)) = None)
    by reflexivity.
  repeat (split; [assumption|]).
  exact (addcom_stores_content_verbatim "Lurk" "MOD" " see  you, @Bob ! "
           (initial greet_table) H0 H1 H2 H3 H4 H5).
Defined.

Lemma delete_cons command c content m table :
  delete command ((c, content, m) :: table)
  = if String.eqb c command then delete command table
    else (c, content, m) :: delete command table.
Proof.
  unfold delete. destruct (String.eqb c command) eqn:E.
  - apply filter_cons_False. cbn. rewrite E. discriminate.
  - apply filter_cons_True. cbn. exact E.
Qed.

Lemma select_delete command table : select command (delete command table) = None.
Proof.
  induction table as [|[[c content] m] table IH]; [reflexivity|].
  rewrite delete_cons. destruct (String.eqb c command) eqn:E; [exact IH|].
  cbn. rewrite E. exact IH.
Qed.

Lemma select_delete_other command other table :
  other <> command -> select other (delete command table) = select other table.
Proof.
  intros Hne. induction table as [|[[c content] m] table IH]; [reflexivity|].
  rewrite delete_cons. destruct (String.eqb_spec c command) as [->|Hc]; cbn.
  - destruct (String.eqb_spec command other); [congruence|exact IH].
  - rewrite IH. reflexivity.
Qed.

Lemma delete_absent command table :
  select command table = None -> delete command table = table.
Proof.
  induction table as [|[[c content] m] table IH]; [reflexivity|].
  rewrite delete_cons. cbn. destruct (String.eqb c command) eqn:E; [discriminate|].
  intros H. rewrite IH by exact H. reflexivity.
Qed.

Lemma set_commands_same f st : f (commands st) = commands st -> set_commands f st = st.
Proof. destruct st. unfold set_commands. cbn. intros ->. reflexivity. Qed.

(** X2. After [delete_command] no row of the name given is found, every
    other name is found as before, and deleting a name that is not stored
    changes nothing and raises nothing. *)
Theorem delete_command_removes message command st :
  Py.split_char " " message !! 1%nat = Some command ->
  delete_command message st = Returned tt (set_commands (delete command) st)
  /\ select command (delete command (commands st)) = None
  /\ (forall other, other <> command ->
      select other (delete command (commands st)) = select other (commands st))
  /\ (select command (commands st) = None -> delete_command message st = Returned tt st).
Proof.
  intros H.
  assert (E : delete_command message st = Returned tt (set_commands (delete command) st)).
  { unfold delete_command. run. rewrite H. reflexivity. }
  split; [exact E|]. split; [apply select_delete|].
  split; [intros other Hne; apply select_delete_other, Hne|].
  intros Hnone. rewrite E. f_equal. apply set_commands_same, delete_absent, Hnone.
Qed.

Lemma delete_command_removes_witness :
  Py.split_char " " "delcom greet" !! 1%nat = Some "greet"
  /\ delete_command "delcom greet" (initial greet_table) = Returned tt (initial [])
  /\ delete_command "delcom greet" (initial empty_foo) = Returned tt (initial empty_foo).
Proof.
  assert (H : Py.split_char " " "delcom greet" !! 1%nat = Some "greet") by reflexivity.
  split; [exact H|]. split.
  - exact (proj1 (delete_command_removes "delcom greet" "greet" (initial greet_table) H)).
  - apply (delete_command_removes "delcom greet" "greet" (initial empty_foo) H).
    reflexivity.
Defined.

Lemma lower_ascii_code x :
  N_of_ascii (Py.lower_ascii x)
  = (if ((65 <=? N_of_ascii x) && (N_of_ascii x <=? 90))%N
     then N_of_ascii x + 32 else N_of_ascii x)%N.
Proof.
  unfold Py.lower_ascii.
  destruct ((65 <=? N_of_ascii x) && (N_of_ascii x <=? 90))%N eqn:E; [|reflexivity].
  apply andb_true_iff in E as [E1 E2].
  apply N.leb_le in E1, E2. apply N_ascii_embedding. lia.
Qed.

Lemma lower_ascii_idem x : Py.lower_ascii (Py.lower_ascii x) = Py.lower_ascii x.
Proof.
  rewrite <- (ascii_N_embedding (Py.lower_ascii (Py.lower_ascii x))).
  rewrite <- (ascii_N_embedding (Py.lower_ascii x)) at 2. f_equal.
  rewrite (lower_ascii_code (Py.lower_ascii x)).
  rewrite lower_ascii_code.
  destruct ((65 <=? N_of_ascii x) && (N_of_ascii x <=? 90))%N eqn:E.
  - apply andb_true_iff in E as [E1 E2]. apply N.leb_le in E1, E2.
    replace ((65 <=? N_of_ascii x + 32) && (N_of_ascii x + 32 <=? 90))%N with false;
      [reflexivity|].
    symmetry. apply andb_false_iff. right. apply N.leb_gt. lia.
  - rewrite E. reflexivity.
Qed.

Lemma lower_idem s : Py.lower (Py.lower s) = Py.lower s.
Proof. induction s as [|x s IH]; cbn; [reflexivity|]. rewrite lower_ascii_idem, IH. reflexivity. Qed.

Lemma lower_ascii_space x : Py.lower_ascii x = " "%char <-> x = " "%char.
Proof.
  split; [|intros ->; reflexivity].
  intros H. apply (f_equal N_of_ascii) in H. rewrite lower_ascii_code in H.
  change (N_of_ascii " ") with 32%N in H.
  destruct ((65 <=? N_of_ascii x) && (N_of_ascii x <=? 90))%N eqn:E.
  - apply andb_true_iff in E as [E1 E2]. apply N.leb_le in E1. lia.
  - rewrite <- (ascii_N_embedding x), H. reflexivity.
Qed.

Lemma spaceless_lower s : spaceless s -> spaceless (Py.lower s).
Proof.
  unfold spaceless. induction s as [|x s IH]; [reflexivity|].
  cbn [Py.mem_ascii Py.lower]. intros H.
  destruct (ascii_dec " " x) as [|Hx]; [discriminate|].
  destruct (ascii_dec " " (Py.lower_ascii x)) as [E|_]; [|exact (IH H)].
  symmetry in E. apply (proj1 (lower_ascii_space x)) in E. congruence.
Qed.

Lemma split_char_spaceless c s w :
  In w (Py.split_char c s) -> Py.mem_ascii c w = false.
Proof.
  revert w. induction s as [|x s IH]; intros w.
  - cbn. intros [<-|[]]. reflexivity.
  - cbn [Py.split_char]. destruct (ascii_dec x c) as [->|Hne].
    + intros [<-|H]; [reflexivity|apply IH, H].
    + destruct (split_char_head c s) as (v & vs & E). rewrite E in *.
      intros [<-|H].
      * cbn [Py.mem_ascii]. destruct (ascii_dec c x); [congruence|]. apply IH. left. reflexivity.
      * apply IH. right. exact H.
Qed.

Lemma addcom_fields_spaceless message flag command content :
  addcom_fields message = Some (flag, command, content) -> spaceless command.
Proof.
  unfold addcom_fields.
  destruct (Py.split_char " " message !! 1%nat) as [w|] eqn:E1; [|discriminate].
  destruct (String.eqb (Py.lower w) "mod").
  - destruct (Py.split_char " " message !! 2%nat) as [v|] eqn:E2; [|discriminate].
    intros [= _ <- _]. apply spaceless_lower.
    apply (split_char_spaceless " " message). apply list_elem_of_In.
    apply (list_elem_of_lookup_2 _ _ _ E2).
  - intros [= _ <- _]. apply spaceless_lower.
    apply (split_char_spaceless " " message). apply list_elem_of_In.
    apply (list_elem_of_lookup_2 _ _ _ E1).
Qed.

Lemma addcom_fields_lower_case message flag command content :
  addcom_fields message = Some (flag, command, content) -> lower_case command.
Proof.
  unfold addcom_fields, lower_case.
  destruct (Py.split_char " " message !! 1%nat) as [w|]; [|discriminate].
  destruct (String.eqb (Py.lower w) "mod").
  - destruct (Py.split_char " " message !! 2%nat) as [v|]; [|discriminate].
    intros [= _ <- _]. apply lower_idem.
  - intros [= _ <- _]. apply lower_idem.
Qed.

Lemma delete_app command t1 t2 :
  delete command (t1 ++ t2) = delete command t1 ++ delete command t2.
Proof. apply filter_app. Qed.

(** X3. A [delcom] of the name an [addcom] has just stored restores the
    state in which the [addcom] was issued. The message is written in
    ASCII, where [Py.lower] is [str.lower]. *)
Theorem delcom_undoes_addcom message st st1 flag command content :
  Py.is_ascii message = true ->
  addcom_fields message = Some (flag, command, content) ->
  add_command message st = Returned true st1 ->
  delete_command ("delcom " +:+ command) st1 = Returned tt st.
Proof.
  intros _ Hf Hadd. rewrite add_command_fields, Hf in Hadd.
  destruct (select command (commands st)) eqn:Hnone; [discriminate|].
  injection Hadd as <-.
  unfold delete_command. run.
  change ("delcom " +:+ command) with ("delcom" +:+ String " " command).
  rewrite split_char_token by reflexivity.
  rewrite (split_char_last " " command) by exact (addcom_fields_spaceless _ _ _ _ Hf).
  cbn [lookup list_lookup]. f_equal.
  destruct st as [su ch sm t irc cl rd]. unfold set_commands. cbn [commands seen_users
    cooldown_handlers seen_message_ids ircserver calls reads] in *.
  rewrite delete_app, (delete_absent command t Hnone), delete_cons, String.eqb_refl.
  change (delete command []) with (@nil Row). rewrite app_nil_r. reflexivity.
Qed.

Lemma delcom_undoes_addcom_witness :
  Py.is_ascii "addcom Lurk see you" = true
  /\ addcom_fields "addcom Lurk see you" = Some (0, "lurk", "see you")
  /\ add_command "addcom Lurk see you" (initial greet_table)
     = Returned true (initial (greet_table ++ [("lurk", "see you", 0)]))
  /\ delete_command "delcom lurk" (initial (greet_table ++ [("lurk", "see you", 0)]))
     = Returned tt (initial greet_table).
Proof.
  assert (H1 : addcom_fields "addcom Lurk see you" = Some (0, "lurk", "see you"))
    by reflexivity.
  assert (H2 : add_command "addcom Lurk see you" (initial greet_table)
               = Returned true (initial (greet_table ++ [("lurk", "see you", 0)])))
    by reflexivity.
  split; [reflexivity|]. split; [exact H1|]. split; [exact H2|].
  exact (delcom_undoes_addcom "addcom Lurk see you" _ _ _ _ _ eq_refl H1 H2).
Defined.

(** ** What a computation keeps *)

Create HintDb frame.

Lemma keeps_bind {A B : Type} (R : State -> State -> Prop) (m : M A) (f : A -> M B) :
  Transitive R -> keeps R m -> (forall a, keeps R (f a)) -> keeps R (m ≫= f).
Proof.
  intros HT Hm Hf st. specialize (Hm st). unfold mbind, M_bind.
  destruct (m st) as [a st'|e st']; cbn [final_state] in *; [|exact Hm].
  etransitivity; [exact Hm|apply Hf].
Qed.

Lemma keeps_ret {A : Type} (R : State -> State -> Prop) (a : A) :
  Reflexive R -> keeps R (mret a).
Proof. intros HR st. apply HR. Qed.

Lemma keeps_raise {A : Type} (R : State -> State -> Prop) (e : exn) :
  Reflexive R -> keeps R (@raise A e).
Proof. intros HR st. apply HR. Qed.

Lemma keeps_gets {A : Type} (R : State -> State -> Prop) (f : State -> A) :
  Reflexive R -> keeps R (gets f).
Proof. intros HR st. apply HR. Qed.

Lemma keeps_item {A : Type} (R : State -> State -> Prop) (l : list A) i :
  Reflexive R -> keeps R (item l i).
Proof.
  intros HR. unfold item. destruct (l !! i); [apply keeps_ret|apply keeps_raise]; exact HR.
Qed.

Lemma keeps_modify (R : State -> State -> Prop) (f : State -> State) :
  (forall st, R st (f st)) -> keeps R (modify f).
Proof. intros H st. apply H. Qed.

Lemma agree_on_refl {B : Type} (f : State -> B) : Reflexive (agree_on f).
Proof. intros x. reflexivity. Qed.

Lemma agree_on_trans {B : Type} (f : State -> B) : Transitive (agree_on f).
Proof. unfold agree_on. intros x y z H1 H2. congruence. Qed.

Lemma table_stays_well_formed_refl : Reflexive table_stays_well_formed.
Proof. intros x H. exact H. Qed.

Lemma table_stays_well_formed_trans : Transitive table_stays_well_formed.
Proof. unfold table_stays_well_formed. intros x y z H1 H2. auto. Qed.

#[local] Hint Resolve agree_on_refl agree_on_trans table_stays_well_formed_refl
  table_stays_well_formed_trans : frame.

(** Walk through a computation, leaving the state changes to be justified. *)
Ltac frame :=
  repeat first
    [ solve [auto with frame]
    | apply keeps_bind; [solve [auto with frame]| |intros ?]
    | apply keeps_ret; solve [auto with frame]
    | apply keeps_raise; solve [auto with frame]
    | apply keeps_gets; solve [auto with frame]
    | apply keeps_item; solve [auto with frame]
    | match goal with
      | |- keeps _ (match ?x with _ => _ end) => destruct x
      end ].

Lemma select_None_names command table :
  select command table = None <-> command ∉ names table.
Proof.
  induction table as [|[[c content] m] table IH]; cbn.
  - split; [intros _; apply not_elem_of_nil|reflexivity].
  - rewrite not_elem_of_cons. destruct (String.eqb_spec c command) as [->|Hne].
    + split; [discriminate|intros [H _]; contradiction].
    + rewrite IH. split; [intros H; split; [congruence|exact H]|intros [_ H]; exact H].
Qed.

Lemma names_delete_sub command table : names (delete command table) ⊆ names table.
Proof.
  induction table as [|[[c content] m] table IH]; [reflexivity|].
  rewrite delete_cons. destruct (String.eqb c command); cbn.
  - intros x Hx. right. apply IH, Hx.
  - intros x Hx. apply elem_of_cons in Hx as [->|Hx]; [left|right; apply IH, Hx].
Qed.

Lemma well_formed_delete command table :
  well_formed table -> well_formed (delete command table).
Proof.
  unfold well_formed. induction table as [|[[c content] m] table IH]; [intros H; exact H|].
  rewrite delete_cons. cbn. intros [Hnd Hlow].
  apply NoDup_cons in Hnd as [Hc Hnd]. apply Forall_cons in Hlow as [Hl Hlow].
  destruct (String.eqb c command); [apply IH; split; assumption|].
  destruct (IH (conj Hnd Hlow)) as [IH1 IH2]. cbn. split.
  - apply NoDup_cons. split; [|exact IH1]. intros Hin. apply Hc.
    apply (names_delete_sub command table), Hin.
  - apply Forall_cons. split; assumption.
Qed.

Lemma well_formed_insert command content flag table :
  lower_case command -> select command table = None ->
  well_formed table -> well_formed (table ++ [(command, content, flag)]).
Proof.
  unfold well_formed, names. intros Hl Hnone [Hnd Hlow].
  rewrite map_app. cbn. split.
  - apply NoDup_app. split; [exact Hnd|]. split.
    + intros x Hx Hx'. apply list_elem_of_singleton in Hx' as ->.
      apply select_None_names in Hnone. contradiction.
    + apply NoDup_singleton.
  - apply Forall_app. split; [exact Hlow|]. apply Forall_singleton. exact Hl.
Qed.

Lemma agree_table_well_formed {A : Type} (m : M A) :
  keeps (agree_on commands) m -> keeps table_stays_well_formed m.
Proof. intros H st Hwf. rewrite (H st). exact Hwf. Qed.

Lemma keeps_cooldown_command_handler env command user :
  keeps same_but_cooldown (command_handler env command user).
Proof.
  intros st. unfold command_handler. run.
  destruct (select command (commands st)) as [[[c content] flag]|]; [|repeat split].
  destruct (in_MODS env user); [repeat split|].
  destruct (flag =? 0); [|repeat split].
  destruct (cooldown_handlers st !! command) as [h|].
  - unfold CooldownHandler.is_useable, CooldownHandler.time.
    destruct (Float.of_int (CooldownHandler.cooldown h)); [|repeat split].
    destruct (_ >? _); repeat split.
  - unfold CooldownHandler.__init__, CooldownHandler.time.
    destruct (Py.int_of_str (COOLDOWN env)); repeat split.
Qed.

Lemma keeps_well_formed_add_command message :
  keeps table_stays_well_formed (add_command message).
Proof.
  intros st Hwf. rewrite add_command_fields.
  destruct (addcom_fields message) as [[[flag c] content]|] eqn:Hf; [|exact Hwf].
  destruct (select c (commands st)) eqn:Hnone; [exact Hwf|].
  cbn. apply well_formed_insert; try assumption.
  apply (addcom_fields_lower_case _ _ _ _ Hf).
Qed.

Lemma keeps_well_formed_delete_command message :
  keeps table_stays_well_formed (delete_command message).
Proof.
  unfold delete_command. frame.
  apply keeps_modify. intros st Hwf. cbn. apply well_formed_delete, Hwf.
Qed.

Lemma keeps_table_sendmsg env msg : keeps (agree_on commands) (sendmsg env msg).
Proof. intros st. reflexivity. Qed.

Lemma keeps_table_do_call c : keeps (agree_on commands) (do_call c).
Proof. intros st. reflexivity. Qed.

Lemma keeps_table_command_handler env command user :
  keeps (agree_on commands) (command_handler env command user).
Proof. intros st. apply (keeps_cooldown_command_handler env command user st). Qed.

#[local] Hint Resolve keeps_table_sendmsg keeps_table_do_call keeps_table_command_handler
  keeps_well_formed_add_command keeps_well_formed_delete_command
  agree_table_well_formed : frame.

Lemma keeps_well_formed_command env message name :
  keeps table_stays_well_formed (command env message name).
Proof.
  unfold command, builtin, shut_down. frame.
Qed.

Lemma keeps_well_formed_main_loop env ircmsg :
  keeps table_stays_well_formed (main_loop env ircmsg).
Proof.
  pose proof (keeps_well_formed_command env) as Hc.
  unfold main_loop, first_char. frame; apply keeps_modify; intros st H; exact H.
Qed.

(** X4. No sequence of lines read from the chat, whoever sent them and
    whether or not one of them raises, makes the table of stored commands
    hold a name twice or a name that is not in lower case, if it did not
    before. *)
Theorem chat_keeps_the_table_well_formed env lines st :
  well_formed (commands st) ->
  well_formed (commands (final_state (main_loops env lines st))).
Proof.
  revert st. change (keeps table_stays_well_formed (main_loops env lines)).
  induction lines as [|l lines IH]; cbn [main_loops].
  - apply keeps_ret. auto with frame.
  - apply keeps_bind; [auto with frame|apply keeps_well_formed_main_loop|intros _; exact IH].
Qed.

Lemma chat_keeps_the_table_well_formed_witness :
  well_formed (commands (initial greet_table))
  /\ well_formed
       (commands (final_state
          (main_loops channel
             [privmsg "kjlander" "!addcom Lurk see you"; privmsg "kjlander" "!addcom LURK bye";
              privmsg "kjlander" "!delcom greet"]
             (initial greet_table)))).
Proof.
  assert (H : well_formed (commands (initial greet_table))).
  { split; cbn; repeat constructor. intros H. apply elem_of_nil in H. exact H. }
  split; [exact H|].
  exact (chat_keeps_the_table_well_formed channel _ (initial greet_table) H).
Defined.

(** ** The dispatcher and the read loop *)

Lemma store_untouched_refl : Reflexive store_untouched.
Proof. intros x. repeat split. Qed.

Lemma store_untouched_trans : Transitive store_untouched.
Proof. unfold store_untouched. intros x y z H1 H2. intuition congruence. Qed.

#[local] Hint Resolve store_untouched_refl store_untouched_trans : frame.

Lemma keeps_store_command_handler env command user :
  keeps store_untouched (command_handler env command user).
Proof.
  intros st. destruct (keeps_cooldown_command_handler env command user st)
    as (_ & H1 & H2 & _ & H3). repeat split; assumption.
Qed.

Lemma keeps_store_sendmsg env msg : keeps store_untouched (sendmsg env msg).
Proof. intros st. repeat split. Qed.

#[local] Hint Resolve keeps_store_command_handler keeps_store_sendmsg : frame.

Lemma keeps_store_command env message name :
  in_MODS env name = false -> keeps store_untouched (command env message name).
Proof.
  intros Hmod. unfold command. frame;
    intros st; rewrite builtin_needs_moderator by exact Hmod; apply store_untouched_refl.
Qed.

(** The branch of [main_loop] on a line that holds [PRIVMSG]. *)
Lemma main_loop_name env ircmsg st :
  Py.find "PRIVMSG" (Py.strip_chars "nr" ircmsg) <> -1 ->
  main_loop env ircmsg st =
    (tail ← item (Py.split1 "PRIVMSG" (Py.strip_chars "nr" ircmsg)) 1;
     text ← item (Py.split1 ":" tail) 1;
     let message := Py.strip text in
     c ← first_char message;
     if Ascii.eqb c "!" then command env message (sender ircmsg)
     else if existsb (fun word => Py.contains word (Py.lower message)) GREETINGS then
       seen ← gets seen_users;
       if bool_decide (sender ircmsg ∈ seen) then mret tt
       else
         sendmsg env ("Hi " +:+ sender ircmsg +:+ " :)");;
         modify (set_seen_users (fun l => l ++ [sender ircmsg]))
     else mret tt) st.
Proof.
  intros Hfind. unfold main_loop, sender.
  destruct (Z.eqb_spec (Py.find "PRIVMSG" (Py.strip_chars "nr" ircmsg)) (-1)) as [E|_];
    [contradiction|].
  cbn [negb].
  destruct (split1_head "!" (Py.strip_chars "nr" ircmsg)) as (w & ws & E). rewrite E.
  reflexivity.
Qed.

(** X5. A line whose sender fails the test [name in MODS] never changes the
    stored commands, never has a collaborator called (no commit, no
    subscription, no shutdown) and never changes the identifiers seen,
    whatever its text and whether or not handling it raises. *)
Theorem viewer_cannot_touch_the_store env ircmsg st :
  in_MODS env (sender ircmsg) = false ->
  store_untouched st (final_state (main_loop env ircmsg st)).
Proof.
  intros Hmod.
  destruct (Z.eq_dec (Py.find "PRIVMSG" (Py.strip_chars "nr" ircmsg)) (-1)) as [E|Hfind].
  - unfold main_loop. rewrite E, Z.eqb_refl. cbn [negb].
    destruct (negb _); repeat split.
  - rewrite (main_loop_name env ircmsg st Hfind).
    pose proof (keeps_store_command env) as Hc.
    revert st. match goal with |- forall st, store_untouched st (final_state (?m st)) =>
      change (keeps store_untouched m) end.
    unfold first_char. frame; try (apply Hc; exact Hmod);
      apply keeps_modify; intros st; repeat split.
Qed.

Lemma viewer_cannot_touch_the_store_witness :
  in_MODS channel (sender (privmsg "bob" "!delcom greet")) = false
  /\ store_untouched (initial greet_table)
       (final_state (main_loop channel (privmsg "bob" "!delcom greet") (initial greet_table))).
Proof.
  assert (H : in_MODS channel (sender (privmsg "bob" "!delcom greet")) = false)
    by reflexivity.
  split; [exact H|].
  exact (viewer_cannot_touch_the_store channel _ (initial greet_table) H).
Defined.

Lemma command_unfold env message name st :
  command env message name st =
    (dbcmd ← command_handler env (command_name message) name;
     match dbcmd with
     | Some (String c text) => sendmsg env (String c text)
     | _ => builtin env (Py.tail message) (command_name message) name
     end) st.
Proof.
  unfold command, command_name.
  destruct (split_char_head " " (Py.tail message)) as (w & ws & E). rewrite E.
  reflexivity.
Qed.

(** X6. A stored command with a template that is not empty takes
    precedence over the hard-coded command of the same name: a moderator
    who sends it is answered with the template, and the hard-coded
    command, be it [disconnect] or [addcom], is not run. *)
Theorem stored_command_shadows_builtin env message name st c content mod_ :
  select (command_name message) (commands st) = Some (c, content, mod_) ->
  content <> EmptyString ->
  in_MODS env name = true ->
  command env message name st =
    Returned tt (final_state (sendmsg env content st)).
Proof.
  intros Hrow Hne Hmod. rewrite command_unfold.
  unfold mbind, M_bind. rewrite (moderator_gets_template _ _ _ _ _ _ _ Hrow Hmod).
  destruct content as [|ch text]; [contradiction|]. reflexivity.
Qed.

Lemma stored_command_shadows_builtin_witness :
  select (command_name "!disconnect") (commands (initial [("disconnect", "not today", 1)]))
  = Some ("disconnect", "not today", 1)
  /\ "not today" <> EmptyString
  /\ in_MODS channel "kjlander" = true
  /\ command channel "!disconnect" "kjlander" (initial [("disconnect", "not today", 1)])
     = Returned tt
         (final_state (sendmsg channel "not today" (initial [("disconnect", "not today", 1)]))).
Proof.
  assert (H1 : select (command_name "!disconnect")
                 (commands (initial [("disconnect", "not today", 1)]))
               = Some ("disconnect", "not today", 1)) by reflexivity.
  assert (H2 : "not today" <> EmptyString) by discriminate.
  assert (H3 : in_MODS channel "kjlander" = true) by reflexivity.
  repeat (split; [assumption|]).
  exact (stored_command_shadows_builtin channel "!disconnect" "kjlander" _ _ _ _ H1 H2 H3).
Defined.

(** X7. The hard-coded commands [so], [addcom] and [delcom] sent by a
    moderator without an argument, and [addcom mod] without a name, raise
    [IndexError] out of [command], which has no handler for it; nothing was
    changed before. *)
Theorem builtin_without_argument_raises env message name st :
  In message ["!so"; "!addcom"; "!delcom"; "!addcom mod"] ->
  select (command_name message) (commands st) = None ->
  in_MODS env name = true ->
  command env message name st = Raised IndexError st.
Proof.
  intros Hin Hnone Hmod. rewrite command_unfold.
  unfold command_handler. run. rewrite Hnone.
  unfold builtin. rewrite Hmod.
  cbn in Hin. destruct Hin as [<-|[<-|[<-|[<-|[]]]]]; reflexivity.
Qed.

Lemma builtin_without_argument_raises_witness :
  In "!so" ["!so"; "!addcom"; "!delcom"; "!addcom mod"]
  /\ select (command_name "!so") (commands (initial greet_table)) = None
  /\ in_MODS channel "kjlander" = true
  /\ command channel "!so" "kjlander" (initial greet_table)
     = Raised IndexError (initial greet_table).
Proof.
  assert (H1 : In "!so" ["!so"; "!addcom"; "!delcom"; "!addcom mod"])
    by (left; reflexivity).
  assert (H2 : select (command_name "!so") (commands (initial greet_table)) = None)
    by reflexivity.
  assert (H3 : in_MODS channel "kjlander" = true) by reflexivity.
  repeat (split; [assumption|]).
  exact (builtin_without_argument_raises channel "!so" "kjlander" (initial greet_table)
           H1 H2 H3).
Defined.

(** ** Cooldowns *)

(** X8. Looking up one command never creates, changes or removes the
    cooldown handler of another. *)
Theorem cooldown_is_per_command env command user other st :
  other <> command ->
  cooldown_handlers (final_state (command_handler env command user st)) !! other
  = cooldown_handlers st !! other.
Proof.
  intros Hne. unfold command_handler. run.
  destruct (select command (commands st)) as [[[c content] mod_]|]; [|reflexivity].
  destruct (in_MODS env user); [reflexivity|].
  destruct (mod_ =? 0); [|reflexivity].
  destruct (cooldown_handlers st !! command) as [h|].
  - destruct (CooldownHandler.is_useable env h (reads st)) as [[[[]|] h'] n'];
      cbn; [apply lookup_insert_ne; congruence|reflexivity..].
  - destruct (CooldownHandler.__init__ env command (COOLDOWN env) (reads st)) as [[h n']|];
      cbn; [apply lookup_insert_ne; congruence|reflexivity].
Qed.

Lemma cooldown_is_per_command_witness :
  "lurk" <> "greet"
  /\ cooldown_handlers
       (final_state (command_handler channel "greet" "bob" (initial greet_table))) !! "lurk"
     = cooldown_handlers (initial greet_table) !! "lurk".
Proof.
  assert (H : "lurk" <> "greet") by discriminate.
  split; [exact H|].
  exact (cooldown_is_per_command channel "greet" "bob" "lurk" (initial greet_table) H).
Defined.

(** X9. The cooldown of a command is shared by all senders who are not
    moderators: once one of them was answered, another who asks before the
    interval has passed is denied. The interval, and the interval added to
    the time of the first use, are numbers that a double holds exactly. *)
Theorem cooldown_is_shared_by_senders env command first second name content N st :
  select command (commands st) = Some (name, content, 0) ->
  in_MODS env first = false ->
  in_MODS env second = false ->
  Py.int_of_str (COOLDOWN env) = Some N ->
  exact N ->
  exact (N + clock env (reads st)) ->
  cooldown_handlers st !! command = None ->
  clock env (S (reads st)) <= clock env (reads st) + N ->
  exists st1 st2,
    command_handler env command first st = Returned (Some content) st1
    /\ command_handler env command second st1 = Returned None st2.
Proof.
  intros Hrow H1 H2 Hint HN Hsum Hnone Hclock.
  eexists _, _. split.
  - apply (command_handler_first env st command first name content N); assumption.
  - erewrite command_handler_next;
      [| exact Hrow | exact H2 | apply lookup_insert_eq | exact HN | exact Hsum].
    cbn. destruct (Z.gtb_spec (clock env (S (reads st))) (clock env (reads st) + N)); [lia|].
    reflexivity.
Qed.

Lemma cooldown_is_shared_by_senders_witness :
  select "greet" (commands (initial greet_table)) = Some ("greet", "Hello there!", 0)
  /\ in_MODS channel "bob" = false
  /\ in_MODS channel "eve" = false
  /\ Py.int_of_str (COOLDOWN channel) = Some 30
  /\ exact 30
  /\ exact (30 + clock channel (reads (initial greet_table)))
  /\ cooldown_handlers (initial greet_table) !! "greet" = None
  /\ clock channel (S (reads (initial greet_table)))
     <= clock channel (reads (initial greet_table)) + 30
  /\ exists st1 st2,
       command_handler channel "greet" "bob" (initial greet_table)
       = Returned (Some "Hello there!") st1
       /\ command_handler channel "greet" "eve" st1 = Returned None st2.
Proof.
  assert (H1 : select "greet" (commands (initial greet_table))
               = Some ("greet", "Hello there!", 0)) by reflexivity.
  assert (H2 : in_MODS channel "bob" = false) by reflexivity.
  assert (H3 : in_MODS channel "eve" = false) by reflexivity.
  assert (H4 : Py.int_of_str (COOLDOWN channel) = Some 30) by reflexivity.
  assert (E1 : exact 30) by reflexivity.
  assert (E2 : exact (30 + clock channel (reads (initial greet_table)))) by reflexivity.
  assert (H5 : cooldown_handlers (initial greet_table) !! "greet" = None) by reflexivity.
  assert (H6 : clock channel (S (reads (initial greet_table)))
               <= clock channel (reads (initial greet_table)) + 30) by (cbn; lia).
  repeat (split; [assumption|]).
  exact (cooldown_is_shared_by_senders channel "greet" "bob" "eve" "greet" "Hello there!" 30
           (initial greet_table) H1 H2 H3 H4 E1 E2 H5 H6).
Defined.

(** X10. When [COOLDOWN] is not the text of an integer, the first use of a
    stored command open to everyone by a sender who is not a moderator
    raises [ValueError] out of [command], and leaves the state as it was:
    no handler is stored, so every such use raises again. *)
Theorem cooldown_that_is_no_number env message name st c content :
  select (command_name message) (commands st) = Some (c, content, 0) ->
  in_MODS env name = false ->
  cooldown_handlers st !! command_name message = None ->
  Py.int_of_str (COOLDOWN env) = None ->
  command env message name st = Raised ValueError st.
Proof.
  intros Hrow Hmod Hnone Hint. rewrite command_unfold.
  unfold command_handler. run. rewrite Hrow, Hmod. cbn [Z.eqb].
  rewrite Hnone. unfold CooldownHandler.__init__. rewrite Hint. reflexivity.
Qed.

Lemma cooldown_that_is_no_number_witness :
  select (command_name "!greet") (commands (initial greet_table))
  = Some ("greet", "Hello there!", 0)
  /\ in_MODS channel_30s "bob" = false
  /\ cooldown_handlers (initial greet_table) !! command_name "!greet" = None
  /\ Py.int_of_str (COOLDOWN channel_30s) = None
  /\ command channel_30s "!greet" "bob" (initial greet_table)
     = Raised ValueError (initial greet_table).
Proof.
  assert (H1 : select (command_name "!greet") (commands (initial greet_table))
               = Some ("greet", "Hello there!", 0)) by reflexivity.
  assert (H2 : in_MODS channel_30s "bob" = false) by reflexivity.
  assert (H3 : cooldown_handlers (initial greet_table) !! command_name "!greet" = None)
    by reflexivity.
  assert (H4 : Py.int_of_str (COOLDOWN channel_30s) = None) by reflexivity.
  repeat (split; [assumption|]).
  exact (cooldown_that_is_no_number channel_30s "!greet" "bob" (initial greet_table)
           "greet" "Hello there!" H1 H2 H3 H4).
Defined.

(** ** Greetings *)

(** The branch of [main_loop] on a line of chat that is no command. *)
Lemma main_loop_plain env ircmsg st :
  plain_chat ircmsg ->
  main_loop env ircmsg st =
    if greets ircmsg then
      if bool_decide (sender ircmsg ∈ seen_users st) then Returned tt st
      else Returned tt
             (set_seen_users (fun l => l ++ [sender ircmsg])
                (final_state (sendmsg env ("Hi " +:+ sender ircmsg +:+ " :)") st)))
    else Returned tt st.
Proof.
  intros (Hfind & c & rest & Htext & Hc).
  rewrite (main_loop_name env ircmsg st Hfind).
  unfold greets. unfold chat_text in *.
  unfold item, mbind, M_bind.
  destruct (Py.split1 "PRIVMSG" (Py.strip_chars "nr" ircmsg) !! 1%nat) as [tail|];
    [|discriminate].
  cbn beta iota. unfold mret, M_ret. cbn beta iota.
  destruct (Py.split1 ":" tail !! 1%nat) as [text|]; [|discriminate].
  cbn beta iota. injection Htext as Htext. rewrite Htext.
  cbn [first_char]. unfold mret, M_ret. cbn beta iota.
  destruct (Ascii.eqb_spec c "!"); [contradiction|].
  destruct (existsb _ GREETINGS); [|reflexivity].
  unfold gets. cbn beta iota.
  destruct (bool_decide (sender ircmsg ∈ seen_users st)); reflexivity.
Qed.

Lemma plain_chat_privmsg who c rest :
  Py.find "PRIVMSG" (Py.strip_chars "nr" (privmsg who (String c rest))) <> -1 ->
  chat_text (privmsg who (String c rest)) = Some (String c rest) ->
  c <> "!"%char ->
  plain_chat (privmsg who (String c rest)).
Proof. intros H1 H2 H3. split; [exact H1|]. exists c, rest. split; assumption. Qed.

(** Nothing that is received removes a sender from the senders seen;
    only [clear_seen_users] does. *)
Lemma still_seen_refl : Reflexive still_seen.
Proof. intros st x H. exact H. Qed.

Lemma still_seen_trans : Transitive still_seen.
Proof. intros x y z H1 H2 u Hu. apply H2, H1, Hu. Qed.

Lemma still_seen_same st st' : seen_users st' = seen_users st -> still_seen st st'.
Proof. intros E x H. rewrite E. exact H. Qed.

#[local] Hint Resolve still_seen_refl still_seen_trans : frame.

Lemma keeps_seen_sendmsg env msg : keeps still_seen (sendmsg env msg).
Proof. intros st. apply still_seen_same. reflexivity. Qed.

Lemma keeps_seen_do_call c : keeps still_seen (do_call c).
Proof. intros st. apply still_seen_same. reflexivity. Qed.

Lemma keeps_seen_command_handler env command user :
  keeps still_seen (command_handler env command user).
Proof.
  intros st. apply still_seen_same.
  apply (keeps_cooldown_command_handler env command user st).
Qed.

Lemma keeps_seen_add_command message : keeps still_seen (add_command message).
Proof.
  unfold add_command. frame; apply keeps_modify; intros st; apply still_seen_same; reflexivity.
Qed.

Lemma keeps_seen_delete_command message : keeps still_seen (delete_command message).
Proof.
  unfold delete_command. frame; apply keeps_modify; intros st; apply still_seen_same; reflexivity.
Qed.

#[local] Hint Resolve keeps_seen_sendmsg keeps_seen_do_call keeps_seen_command_handler
  keeps_seen_add_command keeps_seen_delete_command : frame.

Lemma keeps_seen_command env message name : keeps still_seen (command env message name).
Proof. unfold command, builtin, shut_down. frame. Qed.

Lemma keeps_seen_main_loop env ircmsg : keeps still_seen (main_loop env ircmsg).
Proof.
  pose proof (keeps_seen_command env) as Hc.
  unfold main_loop, first_char. frame; apply keeps_modify; intros st x Hx;
    cbn; try apply elem_of_app; auto.
Qed.

(** X12. After [clear_seen_users], which announces itself in the chat, a
    sender who greets is greeted again, whoever was seen before, and is
    then the only sender seen. *)
Theorem greeted_again_after_reset env ircmsg st :
  plain_chat ircmsg -> greets ircmsg = true ->
  exists st',
    main_loop env ircmsg (final_state (clear_seen_users env st)) = Returned tt st'
    /\ seen_users st' = [sender ircmsg]
    /\ ircserver st' = ircserver st
         ++ [chat_line env "/me Seen users list cleared!";
             chat_line env ("Hi " +:+ sender ircmsg +:+ " :)")].
Proof.
  intros Hplain Hgreets.
  rewrite (main_loop_plain env ircmsg _ Hplain), Hgreets.
  rewrite bool_decide_eq_false_2 by (cbn; apply not_elem_of_nil).
  eexists. split; [reflexivity|]. split; [reflexivity|].
  cbn -[sender String.append app].
  change (ircserver (final_state (clear_seen_users env st)))
    with (ircserver st ++ [chat_line env "/me Seen users list cleared!"]).
  rewrite <- app_assoc. reflexivity.
Qed.

Lemma greeted_again_after_reset_witness :
  plain_chat (privmsg "bob" "hello everyone")
  /\ greets (privmsg "bob" "hello everyone") = true
  /\ exists st',
       main_loop channel (privmsg "bob" "hello everyone")
         (final_state (clear_seen_users channel
            (set_seen_users (fun _ => ["bob"]) (initial []))))
       = Returned tt st'
       /\ seen_users st' = [sender (privmsg "bob" "hello everyone")]
       /\ ircserver st'
          = ircserver (set_seen_users (fun _ => ["bob"]) (initial []))
            ++ [chat_line channel "/me Seen users list cleared!";
                chat_line channel ("Hi " +:+ sender (privmsg "bob" "hello everyone") +:+ " :)")].
Proof.
  assert (H1 : plain_chat (privmsg "bob" "hello everyone")).
  { apply plain_chat_privmsg; [vm_compute|reflexivity|]; discriminate. }
  assert (H2 : greets (privmsg "bob" "hello everyone") = true) by reflexivity.
  repeat (split; [assumption|]).
  exact (greeted_again_after_reset channel _
           (set_seen_users (fun _ => ["bob"]) (initial [])) H1 H2).
Defined.

Lemma contains_part pre word post : Py.contains word (pre +:+ word +:+ post) = true.
Proof.
  induction pre as [|c pre IH].
  - change (EmptyString +:+ word +:+ post) with (word +:+ post).
    destruct (word +:+ post) eqn:E; cbn; rewrite <- E, startswith_append; reflexivity.
  - rewrite append_cons. cbn. rewrite IH. apply orb_true_r.
Qed.

(** X13. A greeting is recognised wherever its letters occur in the text in
    lower case, also inside another word: a sender not yet seen whose text
    holds them is answered and recorded. *)
Theorem greeting_word_inside_a_word env ircmsg st message pre word post :
  plain_chat ircmsg ->
  chat_text ircmsg = Some message ->
  In word GREETINGS ->
  Py.lower message = pre +:+ word +:+ post ->
  sender ircmsg ∉ seen_users st ->
  main_loop env ircmsg st
  = Returned tt
      (set_seen_users (fun l => l ++ [sender ircmsg])
         (final_state (sendmsg env ("Hi " +:+ sender ircmsg +:+ " :)") st))).
Proof.
  intros Hplain Htext Hword Hlow Hnew.
  rewrite (main_loop_plain env ircmsg st Hplain).
  unfold greets. rewrite Htext.
  replace (existsb _ GREETINGS) with true.
  - rewrite bool_decide_eq_false_2 by exact Hnew. reflexivity.
  - symmetry. apply existsb_exists. exists word. split; [exact Hword|].
    rewrite Hlow. apply contains_part.
Qed.

Lemma greeting_word_inside_a_word_witness :
  plain_chat (privmsg "bob" "Is THIS the new map?")
  /\ chat_text (privmsg "bob" "Is THIS the new map?") = Some "Is THIS the new map?"
  /\ In "hi" GREETINGS
  /\ Py.lower "Is THIS the new map?" = "is t" +:+ "hi" +:+ "s the new map?"
  /\ (sender (privmsg "bob" "Is THIS the new map?") ∉ seen_users (initial []))
  /\ main_loop channel (privmsg "bob" "Is THIS the new map?") (initial [])
     = Returned tt
         (set_seen_users (fun l => l ++ [sender (privmsg "bob" "Is THIS the new map?")])
            (final_state
               (sendmsg channel
                  ("Hi " +:+ sender (privmsg "bob" "Is THIS the new map?") +:+ " :)")
                  (initial [])))).
Proof.
  assert (H1 : plain_chat (privmsg "bob" "Is THIS the new map?")).
  { apply plain_chat_privmsg; [vm_compute|reflexivity|]; discriminate. }
  assert (H2 : chat_text (privmsg "bob" "Is THIS the new map?")
               = Some "Is THIS the new map?") by reflexivity.
  assert (H3 : In "hi" GREETINGS) by (left; reflexivity).
  assert (H4 : Py.lower "Is THIS the new map?" = "is t" +:+ "hi" +:+ "s the new map?")
    by reflexivity.
  assert (H5 : sender (privmsg "bob" "Is THIS the new map?") ∉ seen_users (initial []))
    by apply not_elem_of_nil.
  repeat (split; [assumption|]).
  exact (greeting_word_inside_a_word channel _ (initial []) _ _ _ _ H1 H2 H3 H4 H5).
Defined.

Lemma sent_only_refl P : Reflexive (sent_only P).
Proof. intros st. exists []. split; [symmetry; apply app_nil_r|constructor]. Qed.

Lemma sent_only_trans P : Transitive (sent_only P).
Proof.
  intros x y z (l1 & E1 & H1) (l2 & E2 & H2). exists (l1 ++ l2).
  split; [rewrite E2, E1; symmetry; apply app_assoc|apply Forall_app; split; assumption].
Qed.

Lemma sent_only_same P st st' : ircserver st' = ircserver st -> sent_only P st st'.
Proof. intros E. exists []. split; [rewrite E; symmetry; apply app_nil_r|constructor]. Qed.

#[local] Hint Resolve sent_only_refl sent_only_trans : frame.

Lemma keeps_privmsg_sendmsg env msg : keeps (sent_only is_privmsg) (sendmsg env msg).
Proof.
  intros st. exists [chat_line env msg]. split; [reflexivity|].
  constructor; [|constructor]. apply startswith_append.
Qed.

Lemma keeps_privmsg_do_call c : keeps (sent_only is_privmsg) (do_call c).
Proof. intros st. apply sent_only_same. reflexivity. Qed.

Lemma keeps_privmsg_command_handler env command user :
  keeps (sent_only is_privmsg) (command_handler env command user).
Proof.
  intros st. apply sent_only_same.
  apply (keeps_cooldown_command_handler env command user st).
Qed.

Lemma keeps_privmsg_add_command message : keeps (sent_only is_privmsg) (add_command message).
Proof.
  unfold add_command. frame; apply keeps_modify; intros st; apply sent_only_same; reflexivity.
Qed.

Lemma keeps_privmsg_delete_command message :
  keeps (sent_only is_privmsg) (delete_command message).
Proof.
  unfold delete_command. frame; apply keeps_modify; intros st; apply sent_only_same; reflexivity.
Qed.

#[local] Hint Resolve keeps_privmsg_sendmsg keeps_privmsg_do_call keeps_privmsg_command_handler
  keeps_privmsg_add_command keeps_privmsg_delete_command : frame.




(** ** The webhook handler, continued *)

Lemma webhook_footprint_refl st : webhook_footprint st st.
Proof. repeat split. left. reflexivity. Qed.

Lemma do_POST_footprint env req st :
  webhook_footprint st (final_state (do_POST env req st)).
Proof.
  destruct (post_data req) as [e|body] eqn:Hb.
  { unfold do_POST. rewrite Hb. apply webhook_footprint_refl. }
  destruct (truthy (header req "Twitch-Eventsub-Message-Id")) eqn:Hid.
  2:{ rewrite (do_POST_foreign env req st body Hb Hid). apply webhook_footprint_refl. }
  destruct (header req "Twitch-Eventsub-Message-Id") as [[|c r]|] eqn:Hh;
    try discriminate Hid.
  destruct (decide (String c r ∈ seen_message_ids st)) as [Hin|Hout].
  { rewrite (do_POST_seen env req st body (String c r)) by (assumption || discriminate).
    apply webhook_footprint_refl. }
  rewrite (do_POST_fresh env req st body (String c r)) by (assumption || discriminate).
  destruct (header req "Twitch-Eventsub-Message-Timestamp") as [ts|];
    [|apply webhook_footprint_refl].
  destruct (header req "Twitch-Eventsub-Message-Signature") as [sig|];
    [|apply webhook_footprint_refl].
  destruct (verify_signature _ _ _ _ _); [|apply webhook_footprint_refl].
  destruct (verified_frame env req body (String c r) st) as (H1 & H2 & H3 & H4 & H5 & H6).
  repeat split; try assumption. right. exists (String c r). exact H3.
Qed.

(** X15. Whatever the request, and whether [do_POST] returns or raises, it
    leaves the stored commands, the cooldowns, the senders seen, the calls
    to collaborators and the clock as they were, and records at most one
    identifier. *)
Theorem webhook_keeps_to_itself env req st :
  webhook_footprint st (final_state (do_POST env req st)).
Proof. apply do_POST_footprint. Qed.

(** Neither a request nor a line of the chat removes an identifier
    once seen. *)
Lemma keeps_ids_sendmsg env msg : keeps (agree_on seen_message_ids) (sendmsg env msg).
Proof. intros st. reflexivity. Qed.

Lemma keeps_ids_do_call c : keeps (agree_on seen_message_ids) (do_call c).
Proof. intros st. reflexivity. Qed.

Lemma keeps_ids_command_handler env command user :
  keeps (agree_on seen_message_ids) (command_handler env command user).
Proof. intros st. apply (keeps_cooldown_command_handler env command user st). Qed.

Lemma keeps_ids_add_command message :
  keeps (agree_on seen_message_ids) (add_command message).
Proof. unfold add_command. frame; apply keeps_modify; intros st; reflexivity. Qed.

Lemma keeps_ids_delete_command message :
  keeps (agree_on seen_message_ids) (delete_command message).
Proof. unfold delete_command. frame; apply keeps_modify; intros st; reflexivity. Qed.

#[local] Hint Resolve keeps_ids_sendmsg keeps_ids_do_call keeps_ids_command_handler
  keeps_ids_add_command keeps_ids_delete_command : frame.




Lemma seen_users_stay env inputs : forall st x,
  x ∈ seen_users st -> x ∈ seen_users (after_all env inputs st).
Proof.
  induction inputs as [|i inputs IH]; intros st x Hx; [exact Hx|].
  cbn [after_all fold_left]. apply IH. destruct i as [req|ircmsg]; cbn [after].
  - destruct (do_POST_footprint env req st) as (_ & _ & E & _). rewrite E. exact Hx.
  - apply (keeps_seen_main_loop env ircmsg st), Hx.
Qed.

(** X11. Once a line of a sender was taken for a greeting, no line of that
    sender that is not a command has any effect, whatever was received on
    the chat and on the webhook in between: until [clear_seen_users] runs,
    the sender is greeted once. *)
Theorem greeted_once env first inputs later st :
  plain_chat first -> greets first = true ->
  plain_chat later -> sender later = sender first ->
  main_loop env later (after_all env (said first :: inputs) st)
  = Returned tt (after_all env (said first :: inputs) st).
Proof.
  intros Hfirst Hgreets Hlater Hsame.
  assert (Hseen : sender first ∈ seen_users (after_all env (said first :: inputs) st)).
  { cbn [after_all fold_left after]. apply seen_users_stay.
    rewrite (main_loop_plain env first st Hfirst), Hgreets.
    destruct (bool_decide (sender first ∈ seen_users st)) eqn:E.
    - apply bool_decide_eq_true_1 in E. exact E.
    - cbn. apply elem_of_app. right. apply list_elem_of_singleton. reflexivity. }
  rewrite (main_loop_plain env later _ Hlater), Hsame.
  rewrite (bool_decide_eq_true_2 _ Hseen).
  destruct (greets later); reflexivity.
Qed.

Lemma greeted_once_witness :
  plain_chat (privmsg "bob" "hello everyone")
  /\ greets (privmsg "bob" "hello everyone") = true
  /\ plain_chat (privmsg "bob" "hi again")
  /\ sender (privmsg "bob" "hi again") = sender (privmsg "bob" "hello everyone")
  /\ main_loop channel (privmsg "bob" "hi again")
       (after_all channel
          [said (privmsg "bob" "hello everyone"); said (privmsg "eve" "hey");
           posted follow_notification; said (privmsg "kjlander" "!addcom lurk bye")]
          (initial []))
     = Returned tt
         (after_all channel
            [said (privmsg "bob" "hello everyone"); said (privmsg "eve" "hey");
             posted follow_notification; said (privmsg "kjlander" "!addcom lurk bye")]
            (initial [])).
Proof.
  assert (H1 : plain_chat (privmsg "bob" "hello everyone")).
  { apply plain_chat_privmsg; [vm_compute|reflexivity|]; discriminate. }
  assert (H2 : greets (privmsg "bob" "hello everyone") = true) by reflexivity.
  assert (H3 : plain_chat (privmsg "bob" "hi again")).
  { apply plain_chat_privmsg; [vm_compute|reflexivity|]; discriminate. }
  assert (H4 : sender (privmsg "bob" "hi again") = sender (privmsg "bob" "hello everyone"))
    by reflexivity.
  repeat (split; [assumption|]).
  exact (greeted_once channel _ [said (privmsg "eve" "hey"); posted follow_notification;
                                   said (privmsg "kjlander" "!addcom lurk bye")]
           _ (initial []) H1 H2 H3 H4).
Defined.





(** ** Signatures, continued *)

Lemma round_length h kw : List.length h = 8%nat -> List.length (Hashlib.round h kw) = 8%nat.
Proof.
  intros H. do 9 (destruct h as [|? h]; try discriminate H). reflexivity.
Qed.

Lemma rounds_length kws : forall h,
  List.length h = 8%nat -> List.length (fold_left Hashlib.round kws h) = 8%nat.
Proof.
  induction kws as [|kw kws IH]; intros h H; [exact H|].
  apply IH, round_length, H.
Qed.

Lemma zip_add_length x : forall y,
  List.length (Hashlib.zip_add x y) = Nat.min (List.length x) (List.length y).
Proof.
  induction x as [|a x IH]; intros [|b y]; cbn [Hashlib.zip_add List.length Nat.min];
    try reflexivity.
  rewrite IH. reflexivity.
Qed.

Lemma compress_length h block :
  List.length h = 8%nat -> List.length (Hashlib.compress h block) = 8%nat.
Proof.
  intros H. unfold Hashlib.compress. rewrite zip_add_length, rounds_length, H by exact H.
  reflexivity.
Qed.

(** A digest has thirty-two bytes. *)
Lemma sha256_length m : List.length (Hashlib.sha256 m) = 32%nat.
Proof.
  unfold Hashlib.sha256.
  assert (H : List.length
                (fold_left Hashlib.compress
                   (Hashlib.blocks (Datatypes.length (Hashlib.words_of (Hashlib.pad m)) / 16)
                      (Hashlib.words_of (Hashlib.pad m))) Hashlib.H0) = 8%nat).
  { generalize (Hashlib.blocks (Datatypes.length (Hashlib.words_of (Hashlib.pad m)) / 16)
                  (Hashlib.words_of (Hashlib.pad m))).
    assert (H0 : List.length Hashlib.H0 = 8%nat) by reflexivity.
    revert H0. generalize Hashlib.H0.
    intros h H0 bs. revert h H0.
    induction bs as [|b bs IH]; intros h H0; [exact H0|].
    apply IH, compress_length, H0. }
  revert H.
  generalize (fold_left Hashlib.compress
                (Hashlib.blocks (Datatypes.length (Hashlib.words_of (Hashlib.pad m)) / 16)
                   (Hashlib.words_of (Hashlib.pad m))) Hashlib.H0).
  intros h H. do 9 (destruct h as [|? h]; try discriminate H). reflexivity.
Qed.

Lemma hex_length l : String.length (Hashlib.hex l) = (2 * List.length l)%nat.
Proof.
  induction l as [|b l IH]; [reflexivity|].
  cbn [Hashlib.hex String.length List.length]. rewrite IH. lia.
Qed.

Lemma hexdigit_lower_hex d :
  0 <= d < 16 -> Py.mem_ascii (Hashlib.hexdigit d) "0123456789abcdef" = true.
Proof.
  intros H.
  assert (E : d = 0 \/ d = 1 \/ d = 2 \/ d = 3 \/ d = 4 \/ d = 5 \/ d = 6 \/ d = 7 \/
              d = 8 \/ d = 9 \/ d = 10 \/ d = 11 \/ d = 12 \/ d = 13 \/ d = 14 \/ d = 15)
    by lia.
  repeat (destruct E as [->|E]; [reflexivity|]). subst d. reflexivity.
Qed.

Lemma hex_lower_hex l : Forall is_byte l -> is_lower_hex (Hashlib.hex l) = true.
Proof.
  induction 1 as [|b l Hb Hl IH]; [reflexivity|].
  unfold is_byte in Hb. cbn [Hashlib.hex is_lower_hex].
  rewrite !hexdigit_lower_hex, IH; [reflexivity| |].
  - apply Z.mod_pos_bound. lia.
  - split; [apply Z.div_pos; lia|apply Z.div_lt_upper_bound; lia].
Qed.

(** X18. A signature that [verify_signature] accepts is, once the prefix is
    removed, sixty-four lower-case hexadecimal digits: the same digest
    written in upper case, shortened or padded is refused. *)
Theorem accepted_signature_shape secret es_id es_timestamp es_body_bytes es_sig :
  verify_signature secret es_id es_timestamp es_body_bytes es_sig = true ->
  String.length (Py.removeprefix "sha256=" es_sig) = 64%nat
  /\ is_lower_hex (Py.removeprefix "sha256=" es_sig) = true.
Proof.
  intros H. apply verify_signature_true in H. rewrite H. unfold sign. split.
  - rewrite hex_length. unfold Hashlib.hmac_sha256. rewrite sha256_length. reflexivity.
  - apply hex_lower_hex, hmac_range.
Qed.

Lemma accepted_signature_shape_witness :
  verify_signature "s3cret" "m2" timestamp ada ada_signature = true
  /\ String.length (Py.removeprefix "sha256=" ada_signature) = 64%nat
  /\ is_lower_hex (Py.removeprefix "sha256=" ada_signature) = true.
Proof.
  assert (H : verify_signature "s3cret" "m2" timestamp ada ada_signature = true)
    by (vm_compute; reflexivity).
  split; [exact H|].
  exact (accepted_signature_shape "s3cret" "m2" timestamp ada ada_signature H).
Defined.

Lemma lower_hex_no_prefix s : is_lower_hex s = true -> Py.startswith "sha256=" s = false.
Proof.
  destruct s as [|c s]; [reflexivity|]. cbn [is_lower_hex Py.startswith].
  destruct (ascii_dec "s" c) as [<-|]; [discriminate|reflexivity].
Qed.

Lemma drop_length_append p s : Py.drop (String.length p) (p +:+ s) = s.
Proof.
  induction p as [|c p IH]; [reflexivity|]. rewrite append_cons. exact IH.
Qed.

Lemma removeprefix_append p s : Py.removeprefix p (p +:+ s) = s.
Proof. unfold Py.removeprefix. rewrite startswith_append. apply drop_length_append. Qed.

(** X19. The sender's signature is accepted with the prefix [sha256=] and
    without it. *)
Theorem signature_prefix_is_optional secret es_id es_timestamp es_body_bytes :
  verify_signature secret es_id es_timestamp es_body_bytes
    (sign secret es_id es_timestamp es_body_bytes) = true
  /\ verify_signature secret es_id es_timestamp es_body_bytes
       ("sha256=" +:+ sign secret es_id es_timestamp es_body_bytes) = true.
Proof.
  split; apply verify_signature_true.
  - unfold Py.removeprefix. rewrite lower_hex_no_prefix; [reflexivity|].
    apply hex_lower_hex, hmac_range.
  - apply removeprefix_append.
Qed.



(** ** The answers of the Twitch API *)

Lemma id_text_py_str v s : id_text v = Some s -> py_str v = s.
Proof.
  destruct v as [| |n| | |t| |]; try discriminate.
  - unfold id_text. destruct (Z.abs n <? 10 ^ 4300); [|discriminate].
    intros [= <-]. reflexivity.
  - intros [= <-]. reflexivity.
Qed.

Lemma last_user_id_last users : forall user_id st,
  Forall (fun u => is_Some (user_id_of u)) users ->
  last_user_id users user_id st
  = Returned (List.last (map (fun u => default EmptyString (user_id_of u)) users) user_id) st.
Proof.
  induction users as [|u users IH]; intros user_id st Hall; [reflexivity|].
  apply Forall_cons in Hall as [[i Hu] Hall]. cbn [last_user_id].
  unfold user_id_of in Hu.
  destruct u as [| | | | | |?|members] eqn:Eu; try discriminate Hu.
  unfold subscript. destruct (Json.dict_get "_id" members) as [v|] eqn:Ev; [|discriminate Hu].
  unfold mbind, M_bind, mret, M_ret. rewrite (IH (py_str v) st Hall).
  f_equal. cbn [map]. unfold user_id_of at 2. rewrite Ev, Hu. cbn [default].
  rewrite (id_text_py_str v i Hu).
  destruct users as [|u' users]; [reflexivity|].
  cbn [map]. generalize (default EmptyString (user_id_of u')).
  generalize (map (fun u => default EmptyString (user_id_of u)) users).
  intros l x. revert x. induction l as [|y l IHl]; intros x; [reflexivity|]. apply IHl.
Qed.

(** X21. When the answer lists users that all have an [_id] that is a
    string or an integer of at most 4300 digits, [get_user_id] returns the
    identifier of the last of them, an integer in decimal, and the empty
    string when the list is empty. *)
Theorem get_user_id_last_wins members users st :
  Json.dict_get "users" members = Some (Json.Arr users) ->
  Forall (fun u => is_Some (user_id_of u)) users ->
  get_user_id (Json.Obj members) st
  = Returned (List.last (map (fun u => default EmptyString (user_id_of u)) users)
                        EmptyString) st.
Proof.
  intros Hu Hall. unfold get_user_id, subscript. rewrite Hu.
  unfold mbind, M_bind, mret, M_ret. cbn beta iota. cbn [py_iter].
  apply last_user_id_last, Hall.
Qed.

Lemma get_user_id_last_wins_witness :
  Json.dict_get "users" [("_total", Json.Int 2); ("users", Json.Arr [user "41"; user "42"])]
  = Some (Json.Arr [user "41"; user "42"])
  /\ Forall (fun u => is_Some (user_id_of u)) [user "41"; user "42"]
  /\ get_user_id
       (Json.Obj [("_total", Json.Int 2); ("users", Json.Arr [user "41"; user "42"])])
       (initial [])
     = Returned "42" (initial []).
Proof.
  assert (H1 : Json.dict_get "users"
                 [("_total", Json.Int 2); ("users", Json.Arr [user "41"; user "42"])]
               = Some (Json.Arr [user "41"; user "42"])) by reflexivity.
  assert (H2 : Forall (fun u => is_Some (user_id_of u)) [user "41"; user "42"]).
  { repeat constructor; eexists; vm_compute; reflexivity. }
  split; [exact H1|]. split; [exact H2|].
  exact (get_user_id_last_wins _ _ (initial []) H1 H2).
Defined.

Lemma unsubscribe_app subs : forall rest,
  Forall (fun s => is_Some (subscription_id_of s)) subs ->
  unsubscribe (subs ++ rest)
  = (map (fun s => "https://api.twitch.tv/helix/eventsub/subscriptions?id="
                     +:+ default EmptyString (subscription_id_of s)) subs
       ++ fst (unsubscribe rest),
     snd (unsubscribe rest)).
Proof.
  induction subs as [|s subs IH]; intros rest Hall.
  - cbn [app map]. destruct (unsubscribe rest). reflexivity.
  - apply Forall_cons in Hall as [[i Hs] Hall]. cbn [app unsubscribe map].
    unfold subscription_id_of in *.
    destruct s as [| | | | | |?|members]; try discriminate Hs.
    destruct (Json.dict_get "id" members) as [v|]; [|discriminate Hs].
    rewrite (IH rest Hall), Hs, (id_text_py_str v i Hs). reflexivity.
Qed.

(** X22. [nuke_eventsubs] requests the deletion of the subscriptions listed
    in their order, one request each, and returns when all have an [id];
    at the first entry without one it raises, [KeyError] for an object and
    [TypeError] for anything else, having deleted the entries before it
    and none after it. The identifiers of the entries deleted are strings
    or integers of at most 4300 digits. *)
Theorem nuke_eventsubs_in_order members subs rest :
  Json.dict_get "data" members = Some (Json.Arr (subs ++ rest)) ->
  Forall (fun s => is_Some (subscription_id_of s)) subs ->
  match rest with
  | [] => True
  | bad :: _ => lacks_id bad
  end ->
  nuke_eventsubs (Json.Obj members)
  = (map (fun s => "https://api.twitch.tv/helix/eventsub/subscriptions?id="
                     +:+ default EmptyString (subscription_id_of s)) subs,
     match rest with
     | [] => None
     | Json.Obj _ :: _ => Some KeyError
     | _ :: _ => Some TypeError
     end).
Proof.
  intros Hd Hall Hrest. unfold nuke_eventsubs. rewrite Hd. cbn [py_iter].
  rewrite (unsubscribe_app subs rest Hall).
  destruct rest as [|bad rest].
  - cbn [unsubscribe fst snd]. rewrite app_nil_r. reflexivity.
  - unfold lacks_id in Hrest. cbn [unsubscribe].
    destruct bad as [| | | | | |?|ms]; cbn [fst snd]; rewrite ?app_nil_r; try reflexivity.
    rewrite Hrest. cbn [fst snd]. rewrite app_nil_r. reflexivity.
Qed.

Lemma nuke_eventsubs_in_order_witness :
  Json.dict_get "data" [("total", Json.Int 4); ("data", Json.Arr (listed ++ unlisted))]
  = Some (Json.Arr (listed ++ unlisted))
  /\ Forall (fun s => is_Some (subscription_id_of s)) listed
  /\ lacks_id Json.Null
  /\ nuke_eventsubs
       (Json.Obj [("total", Json.Int 4); ("data", Json.Arr (listed ++ unlisted))])
     = (["https://api.twitch.tv/helix/eventsub/subscriptions?id=s-1";
         "https://api.twitch.tv/helix/eventsub/subscriptions?id=2"],
        Some TypeError).
Proof.
  assert (H1 : Json.dict_get "data"
                 [("total", Json.Int 4); ("data", Json.Arr (listed ++ unlisted))]
               = Some (Json.Arr (listed ++ unlisted))) by reflexivity.
  assert (H2 : Forall (fun s => is_Some (subscription_id_of s)) listed).
  { repeat constructor; eexists; vm_compute; reflexivity. }
  assert (H3 : lacks_id Json.Null) by exact I.
  split; [exact H1|]. split; [exact H2|]. split; [exact H3|].
  exact (nuke_eventsubs_in_order _ listed unlisted H1 H2 H3).
Defined.

(** ** The authorization callback *)

Lemma mem_ascii_append c a b :
  Py.mem_ascii c (a +:+ b) = Py.mem_ascii c a || Py.mem_ascii c b.
Proof.
  induction a as [|x a IH]; [reflexivity|].
  rewrite append_cons. cbn [Py.mem_ascii]. destruct (ascii_dec c x); [reflexivity|exact IH].
Qed.

Lemma plain_mem c s :
  Py.mem_ascii c reserved = true -> plain s = true -> Py.mem_ascii c s = false.
Proof.
  intros Hc. induction s as [|x s IH]; [reflexivity|].
  cbn [plain Py.mem_ascii]. intros H. apply andb_true_iff in H as [Hx Hs].
  destruct (ascii_dec c x) as [->|_]; [|exact (IH Hs)].
  rewrite Hc in Hx. discriminate Hx.
Qed.

Lemma remove_unsafe_append a b :
  Urllib.remove_unsafe (a +:+ b) = Urllib.remove_unsafe a +:+ Urllib.remove_unsafe b.
Proof.
  induction a as [|x a IH]; [reflexivity|].
  rewrite append_cons. cbn [Urllib.remove_unsafe]. rewrite IH.
  destruct (_ || _); [reflexivity|]. rewrite append_cons. reflexivity.
Qed.

Lemma remove_unsafe_plain s : plain s = true -> Urllib.remove_unsafe s = s.
Proof.
  induction s as [|x s IH]; [reflexivity|].
  cbn [plain Urllib.remove_unsafe]. intros H. apply andb_true_iff in H as [Hx Hs].
  rewrite (IH Hs).
  destruct (Ascii.eqb_spec x "009") as [->|_]; [discriminate Hx|].
  destruct (Ascii.eqb_spec x "010") as [->|_]; [discriminate Hx|].
  destruct (Ascii.eqb_spec x "013") as [->|_]; [discriminate Hx|].
  reflexivity.
Qed.

Lemma replace_plus_plain s : plain s = true -> Urllib.replace_plus s = s.
Proof.
  induction s as [|x s IH]; [reflexivity|].
  cbn [plain Urllib.replace_plus]. intros H. apply andb_true_iff in H as [Hx Hs].
  rewrite (IH Hs). destruct (Ascii.eqb_spec x "+") as [->|_]; [discriminate Hx|reflexivity].
Qed.

Lemma unquote_plain s : plain s = true -> Urllib.unquote s = s.
Proof.
  intros H. unfold Urllib.unquote. rewrite (plain_mem "%" s); [reflexivity..|exact H].
Qed.

Lemma split1_absent c s :
  Py.mem_ascii c s = false -> Py.split1 (String c EmptyString) s = [s].
Proof.
  induction s as [|x s IH]; [reflexivity|].
  cbn [Py.mem_ascii]. destruct (ascii_dec c x) as [|Hne]; [discriminate|]. intros H.
  cbn [Py.split1 Py.startswith]. destruct (ascii_dec c x); [contradiction|].
  rewrite (IH H). reflexivity.
Qed.

Lemma split1_token c a b :
  Py.mem_ascii c a = false ->
  Py.split1 (String c EmptyString) (a +:+ String c b) = [a; b].
Proof.
  induction a as [|x a IH].
  - intros _. change (EmptyString +:+ String c b) with (String c b).
    cbn [Py.split1 Py.startswith]. destruct (ascii_dec c c); [|contradiction].
    destruct b; reflexivity.
  - cbn [Py.mem_ascii]. destruct (ascii_dec c x) as [|Hne]; [discriminate|]. intros H.
    rewrite append_cons. cbn [Py.split1 Py.startswith].
    destruct (ascii_dec c x); [contradiction|]. rewrite (IH H). reflexivity.
Qed.

Lemma urlparse_query_callback code state :
  plain code = true -> plain state = true ->
  Urllib.urlparse_query (callback code state) = Some ("code=" +:+ code +:+ "&state=" +:+ state).
Proof.
  intros Hc Hs. unfold Urllib.urlparse_query, callback.
  rewrite !remove_unsafe_append, (remove_unsafe_plain code Hc), (remove_unsafe_plain state Hs).
  change (Urllib.remove_unsafe "/?code=") with "/?code=".
  change (Urllib.remove_unsafe "&state=") with "&state=".
  change ("/?code=" +:+ code +:+ "&state=" +:+ state)
    with ("/" +:+ String "?" ("code=" +:+ code +:+ "&state=" +:+ state)).
  assert (Hq : plain ("code=" +:+ code +:+ "&state=" +:+ state) = true -> False) by (intros H; discriminate H).
  clear Hq.
  assert (Hash : Py.mem_ascii "#" ("/" +:+ String "?" ("code=" +:+ code +:+ "&state=" +:+ state))
                 = false).
  { change ("/" +:+ String "?" ("code=" +:+ code +:+ "&state=" +:+ state))
      with ("/?code=" +:+ code +:+ "&state=" +:+ state).
    rewrite !mem_ascii_append, (plain_mem "#" code), (plain_mem "#" state) by
      (reflexivity || assumption).
    reflexivity. }
  rewrite (split1_absent "#" _ Hash). cbn [hd].
  rewrite split1_token by reflexivity.
  reflexivity.
Qed.

Lemma parse_qsl_callback code state :
  plain code = true -> plain state = true ->
  code <> EmptyString -> state <> EmptyString ->
  Urllib.parse_qsl ("code=" +:+ code +:+ "&state=" +:+ state)
  = [("code", code); ("state", state)].
Proof.
  intros Hc Hs Hcn Hsn. unfold Urllib.parse_qsl.
  change ("code=" +:+ code +:+ "&state=" +:+ state)
    with (String "c" ("ode=" +:+ code +:+ "&state=" +:+ state)) at 1.
  cbv beta iota.
  change ("code=" +:+ code +:+ "&state=" +:+ state)
    with (("code=" +:+ code) +:+ String "&" ("state=" +:+ state)).
  rewrite split_char_token.
  2:{ rewrite mem_ascii_append, (plain_mem "&" code) by (reflexivity || assumption).
      reflexivity. }
  rewrite split_char_last.
  2:{ rewrite mem_ascii_append, (plain_mem "&" state) by (reflexivity || assumption).
      reflexivity. }
  cbn [flat_map].
  change ("code=" +:+ code) with ("code" +:+ String "=" code).
  change ("state=" +:+ state) with ("state" +:+ String "=" state).
  change ("code" +:+ String "=" code) with (String "c" ("ode" +:+ String "=" code)) at 1.
  change ("state" +:+ String "=" state) with (String "s" ("tate" +:+ String "=" state)) at 1.
  cbv beta iota.
  rewrite !split1_token by reflexivity.
  destruct code as [|c code]; [contradiction|].
  destruct state as [|s state]; [contradiction|].
  rewrite !replace_plus_plain, !unquote_plain by (reflexivity || assumption).
  reflexivity.
Qed.

Lemma first_value_callback code state :
  plain code = true -> plain state = true ->
  code <> EmptyString -> state <> EmptyString ->
  first_value "code" ("code=" +:+ code +:+ "&state=" +:+ state) = Some code
  /\ first_value "state" ("code=" +:+ code +:+ "&state=" +:+ state) = Some state.
Proof.
  intros Hc Hs Hcn Hsn. unfold first_value, Urllib.parse_qs.
  rewrite (parse_qsl_callback code state Hc Hs Hcn Hsn). cbn [fold_left].
  rewrite lookup_empty. rewrite lookup_insert_ne by discriminate. rewrite lookup_empty.
  split.
  - rewrite lookup_insert_ne by discriminate. rewrite lookup_insert_eq. reflexivity.
  - rewrite lookup_insert_eq. reflexivity.
Qed.

(** X23. For a code and a state written without reserved characters, the
    redirect target [/?code=...&state=...] has the token requested for
    exactly that code when the state is the local one, and is answered
    200 twice; with another local state it is answered 403 and then, on
    the same connection, with the 200 page all the same; with no local
    state it is answered with the 200 page only. *)
Theorem callback_round_trip code state :
  plain code = true -> plain state = true ->
  code <> EmptyString -> state <> EmptyString ->
  do_GET (Some state) (callback code state)
  = Some (token_request code :: map reply _set_response
            ++ success_page (callback code state))
  /\ (forall local, local <> state ->
      do_GET (Some local) (callback code state)
      = Some ([reply (send_response 403); reply end_headers]
                ++ success_page (callback code state)))
  /\ do_GET None (callback code state) = Some (success_page (callback code state)).
Proof.
  intros Hc Hs Hcn Hsn.
  destruct (first_value_callback code state Hc Hs Hcn Hsn) as [H1 H2].
  unfold do_GET. rewrite (urlparse_query_callback code state Hc Hs), H1, H2.
  split; [|split].
  - rewrite String.eqb_refl. reflexivity.
  - intros local Hne. destruct (String.eqb_spec state local) as [E|_]; [congruence|].
    reflexivity.
  - reflexivity.
Qed.

Lemma callback_round_trip_witness :
  plain "gulfwdmys5lsm6qyz4xiz9q32l10" = true /\ plain "c3ab8aa609ea11e793ae92361f002671" = true
  /\ "gulfwdmys5lsm6qyz4xiz9q32l10" <> EmptyString
  /\ "c3ab8aa609ea11e793ae92361f002671" <> EmptyString
  /\ do_GET (Some "c3ab8aa609ea11e793ae92361f002671")
       (callback "gulfwdmys5lsm6qyz4xiz9q32l10" "c3ab8aa609ea11e793ae92361f002671")
     = Some (token_request "gulfwdmys5lsm6qyz4xiz9q32l10" :: map reply _set_response
               ++ success_page
                    (callback "gulfwdmys5lsm6qyz4xiz9q32l10" "c3ab8aa609ea11e793ae92361f002671")).
Proof.
  assert (H1 : plain "gulfwdmys5lsm6qyz4xiz9q32l10" = true) by reflexivity.
  assert (H2 : plain "c3ab8aa609ea11e793ae92361f002671" = true) by reflexivity.
  assert (H3 : "gulfwdmys5lsm6qyz4xiz9q32l10" <> EmptyString) by discriminate.
  assert (H4 : "c3ab8aa609ea11e793ae92361f002671" <> EmptyString) by discriminate.
  repeat (split; [assumption|]).
  exact (proj1 (callback_round_trip _ _ H1 H2 H3 H4)).
Defined.

(** X24. [do_GET] asks for a token in exchange for a code exactly when that
    code is the first value of [code] in the query, a first value of
    [state] is there, and the local state is set and equal to it. *)
Theorem token_requested_iff STATE path parsed ops code :
  Urllib.urlparse_query path = Some parsed ->
  do_GET STATE path = Some ops ->
  In (token_request code) ops
  <-> first_value "code" parsed = Some code
      /\ exists state, first_value "state" parsed = Some state /\ STATE = Some state.
Proof.
  intros Hq. unfold do_GET. rewrite Hq. intros [= <-].
  assert (Hpage : ~ In (token_request code)
                      (map reply _set_response
                         ++ [reply (wfile_write ("GET request for " +:+ path))])).
  { cbn. intros [H|[H|[H|[H|[]]]]]; discriminate H. }
  rewrite in_app_iff.
  destruct (first_value "code" parsed) as [c|].
  2:{ split; [intros [[]|H]; contradiction|intros [H _]; discriminate H]. }
  destruct (first_value "state" parsed) as [s|].
  2:{ split; [intros [[]|H]; contradiction|intros [_ (x & H & _)]; discriminate H]. }
  destruct STATE as [local|].
  2:{ split; [intros [[]|H]; contradiction|intros [_ (x & _ & H)]; discriminate H]. }
  destruct (String.eqb_spec s local) as [->|Hne].
  - split.
    + intros [[H|H]|H]; [injection H as ->; eauto| |contradiction].
      cbn in H. destruct H as [H|[H|[H|[]]]]; discriminate H.
    + intros [[= ->] _]. left. left. reflexivity.
  - split.
    + intros [[H|[H|[]]]|H]; [discriminate H|discriminate H|contradiction].
    + intros [_ (x & [= <-] & [= E])]. congruence.
Qed.

Lemma token_requested_iff_witness :
  Urllib.urlparse_query "/auth?state=x%79z&code=&code=A%2Bb#top"
  = Some "state=x%79z&code=&code=A%2Bb"
  /\ do_GET (Some "xyz") "/auth?state=x%79z&code=&code=A%2Bb#top"
     = Some (token_request "A+b" :: map reply _set_response
               ++ success_page "/auth?state=x%79z&code=&code=A%2Bb#top")
  /\ (In (token_request "A+b")
         (token_request "A+b" :: map reply _set_response
            ++ success_page "/auth?state=x%79z&code=&code=A%2Bb#top")
      <-> first_value "code" "state=x%79z&code=&code=A%2Bb" = Some "A+b"
          /\ exists state,
               first_value "state" "state=x%79z&code=&code=A%2Bb" = Some state
               /\ Some "xyz" = Some state).
Proof.
  assert (H1 : Urllib.urlparse_query "/auth?state=x%79z&code=&code=A%2Bb#top"
               = Some "state=x%79z&code=&code=A%2Bb") by reflexivity.
  assert (H2 : do_GET (Some "xyz") "/auth?state=x%79z&code=&code=A%2Bb#top"
               = Some (token_request "A+b" :: map reply _set_response
                         ++ success_page "/auth?state=x%79z&code=&code=A%2Bb#top"))
    by (vm_compute; reflexivity).
  split; [exact H1|]. split; [exact H2|].
  exact (token_requested_iff _ _ _ _ "A+b" H1 H2).
Defined.
